(** * Access control and credential lifecycle of the Login V2 application

    A shallow embedding of the decision functions of [src/utils/permissions.ts],
    the [changePassword] operation of [src/contexts/AuthContext.tsx], the
    submit handler of [src/pages/ResetPasswordPage.tsx] and the request
    handler of [supabase/functions/admin-users/index.ts], followed by the
    properties established about them. *)

From stdpp Require Import base option list strings gmap.
From Stdlib Require Import Ascii String Bool List.
Import ListNotations.
Local Open Scope string_scope.

(** ** JavaScript values used by the program *)

Module Js.

(** An error object: the program only ever reads [name] and [message]. *)
Record JsError := mkError { err_name : string; err_message : string }.

(** The completion of an evaluation: a value, or a thrown error. *)
Inductive completion (A : Type) : Type :=
| Normal (a : A)
| Throw (e : JsError).
Arguments Normal {A} a.
Arguments Throw {A} e.

(** Truthiness of a string: only the empty string is falsy. *)
Definition truthy (s : string) : bool := negb (String.eqb s "").

(** [s || d] on strings. *)
Definition or_else (s d : string) : string := if truthy s then s else d.

(** An optional string used as a condition: [null], [undefined] and the
    empty string are falsy. *)
Definition present (s : option string) : option string :=
  match s with
  | Some v => if truthy v then Some v else None
  | None => None
  end.

(** [Array.prototype.includes] on an array of strings. *)
Definition includes (x : string) (l : list string) : bool :=
  existsb (String.eqb x) l.

(** [String.prototype.includes]. *)
Fixpoint str_includes (sub s : string) : bool :=
  String.prefix sub s ||
  match s with
  | EmptyString => false
  | String _ rest => str_includes sub rest
  end.

(** [String.prototype.endsWith]. *)
Fixpoint endsWith (suffix s : string) : bool :=
  String.eqb s suffix ||
  match s with
  | EmptyString => false
  | String _ rest => endsWith suffix rest
  end.

Fixpoint drop_chars (n : nat) (s : string) : string :=
  match n, s with
  | O, _ => s
  | S n', String _ rest => drop_chars n' rest
  | S _, EmptyString => EmptyString
  end.

(** [s.replace(pat, rep)] with a string pattern: the first occurrence only. *)
Fixpoint replace_first (pat rep s : string) : string :=
  if String.prefix pat s then rep +:+ drop_chars (String.length pat) s
  else match s with
       | EmptyString => EmptyString
       | String c rest => String c (replace_first pat rep rest)
       end.

(** [s.split('/').pop()]: the text after the last slash. *)
Fixpoint last_segment_aux (acc s : string) : string :=
  match s with
  | EmptyString => acc
  | String c rest =>
      if Ascii.eqb c "/"%char then last_segment_aux "" rest
      else last_segment_aux (acc +:+ String c "") rest
  end.
Definition last_segment (s : string) : string := last_segment_aux "" s.

(** The names every ordinary object inherits from [Object.prototype]. *)
Definition Object_prototype_keys : list string :=
  [ "constructor"; "__defineGetter__"; "__defineSetter__"; "hasOwnProperty";
    "__lookupGetter__"; "__lookupSetter__"; "isPrototypeOf";
    "propertyIsEnumerable"; "toString"; "valueOf"; "__proto__";
    "toLocaleString" ].

(** The result of a property read [o[k]] on an ordinary object whose own
    properties hold values of type [A]. *)
Inductive property (A : Type) : Type :=
| Undefined
| Own (a : A)
| Inherited (k : string).
Arguments Undefined {A}.
Arguments Own {A} a.
Arguments Inherited {A} k.

(** [o[k]]: own properties first, then the prototype chain. *)
Definition get {A : Type} (o : gmap string A) (k : string) : property A :=
  match o !! k with
  | Some a => Own a
  | None => if includes k Object_prototype_keys then Inherited k else Undefined
  end.

Definition TypeError (msg : string) : JsError := mkError "TypeError" msg.

End Js.
Import Js.

(** ** src/types/auth.ts *)

Record Role := mkRole { role_name : string; role_description : string }.

Record User := mkUser {
  id : string;
  email : string;
  full_name : string;
  role_id : string;
  menu_access : list string;
  sub_menu_access : gmap string (list string);
  component_access : list string;
  is_active : bool;
  created_at : string;
  needs_password_reset : option bool;
  roles : option Role
}.

Record PasswordValidationResult := mkValidation {
  isValid : bool;
  validation_message : string;
  validation_errors : list string
}.

(** ** src/utils/permissions.ts *)

Module Permissions.

Definition hasMenuAccess (user : option User) (menuId : string) : bool :=
  match user with
  | None => false
  | Some u =>
      if negb (is_active u) then false
      else includes menuId (menu_access u)
  end.

(** [user.sub_menu_access[menuId]?.includes(subMenuId) || false]: the
    optional call short-circuits on [undefined] only; a property inherited
    from [Object.prototype] is a function or an object without an [includes]
    method, and calling it throws. *)
Definition hasSubMenuAccess (user : option User) (menuId subMenuId : string)
  : completion bool :=
  match user with
  | None => Normal false
  | Some u =>
      if negb (is_active u) then Normal false
      else match get (sub_menu_access u) menuId with
           | Undefined => Normal false
           | Own l => Normal (includes subMenuId l || false)
           | Inherited k =>
               Throw (TypeError "user.sub_menu_access[menuId]?.includes is not a function")
           end
  end.

Definition hasComponentAccess (user : option User) (componentId : string) : bool :=
  match user with
  | None => false
  | Some u =>
      if negb (is_active u) then false
      else includes componentId (component_access u)
  end.

(** [user.roles?.name]. *)
Definition roleName (u : User) : option string := role_name <$> roles u.

(** [roleName === s]. *)
Definition role_is (r : option string) (s : string) : bool :=
  match r with
  | Some n => String.eqb n s
  | None => false
  end.

(** [roleName || '']. *)
Definition role_or_empty (r : option string) : string :=
  match r with
  | Some n => or_else n ""
  | None => ""
  end.

Definition hasPermission (user : option User) (resource action : string) : bool :=
  match user with
  | None => false
  | Some u =>
      if negb (is_active u) then false
      else if role_is (roleName u) "admin" then true
      else
        let roleName := roleName u in
        if String.eqb resource "admin" then role_is roleName "admin"
        else if String.eqb resource "dashboard" then
          includes (role_or_empty roleName) ["admin"; "member"; "viewer"]
        else if String.eqb resource "users" then role_is roleName "admin"
        else if String.eqb resource "reports" then
          if String.eqb action "view" then
            includes (role_or_empty roleName) ["admin"; "member"; "viewer"]
          else if String.eqb action "export" then
            includes (role_or_empty roleName) ["admin"; "member"]
          else false
        else if String.eqb resource "transactions" then
          if String.eqb action "create" then
            includes (role_or_empty roleName) ["admin"; "member"]
          else if String.eqb action "approve" then role_is roleName "admin"
          else false
        else false
  end.

Definition isAdmin (user : option User) : bool :=
  match user with
  | None => false
  | Some u => role_is (roleName u) "admin" || false
  end.

Definition canAccessAdminPanel (user : option User) : bool :=
  hasPermission user "admin" "access".

(** The rules as a table of explicit (resource, action) pairs, each with
    the roles it lets in. The pairs are the ones the program names: those
    whose action the [switch] tests, and, for the three cases that test no
    action, the pair the program asks for ([canAccessAdminPanel] for
    "admin", the routes of [App.tsx] for "dashboard" and "users"). *)
Definition explicit_rule_table : list (string * string * list string) :=
  [ ("admin", "access", ["admin"]);
    ("dashboard", "access", ["admin"; "member"; "viewer"]);
    ("users", "read", ["admin"]);
    ("reports", "view", ["admin"; "member"; "viewer"]);
    ("reports", "export", ["admin"; "member"]);
    ("transactions", "create", ["admin"; "member"]);
    ("transactions", "approve", ["admin"]) ].

Definition names_pair (resource action : string)
  (row : string * string * list string) : bool :=
  String.eqb resource (fst (fst row)) && String.eqb action (snd (fst row)).

(** The allowed-role set of a pair, [None] when the pair has no row. *)
Definition explicit_rule_lookup (resource action : string)
  : option (list string) :=
  snd <$> List.find (names_pair resource action) explicit_rule_table.

End Permissions.
Import Permissions.

(** ** Sequential effects: state passing with thrown errors

    An [async] function that awaits each call in turn is a state
    transformer that ends in a value or in a thrown error. *)

Module Eff.

Definition M (S A : Type) : Type := S -> completion A * S.

Definition ret {S A : Type} (a : A) : M S A := fun s => (Normal a, s).

Definition throw {S A : Type} (e : JsError) : M S A := fun s => (Throw e, s).

Definition bind {S A B : Type} (m : M S A) (k : A -> M S B) : M S B :=
  fun s =>
    match m s with
    | (Normal a, s') => k a s'
    | (Throw e, s') => (Throw e, s')
    end.

(** [try { body } catch (err) { handler }]. *)
Definition try_catch {S A : Type} (body : M S A) (handler : JsError -> M S A)
  : M S A :=
  fun s =>
    match body s with
    | (Normal a, s') => (Normal a, s')
    | (Throw e, s') => handler e s'
    end.

(** [try { body } finally { fin }]: [fin] runs on both exits and the
    completion of [body] stands unless [fin] itself throws. *)
Definition finally {S A : Type} (body : M S A) (fin : M S unit) : M S A :=
  fun s =>
    match body s with
    | (c, s') =>
        match fin s' with
        | (Normal _, s'') => (c, s'')
        | (Throw e, s'') => (Throw e, s'')
        end
    end.

Definition modify {S : Type} (f : S -> S) : M S unit := fun s => (Normal tt, f s).

Definition gets {S A : Type} (f : S -> A) : M S A := fun s => (Normal (f s), s).

(** A call to a collaborator that always resolves to a value. *)
Definition call {S A : Type} (op : S -> A * S) : M S A :=
  fun s => let '(a, s') := op s in (Normal a, s').

(** Run a computation on the second component of a pair of states. *)
Definition on_snd {S1 S2 A : Type} (m : M S2 A) : M (S1 * S2) A :=
  fun s => let '(c, s2) := m (snd s) in (c, (fst s, s2)).

(** Update the first component of a pair of states. *)
Definition modify_fst {S1 S2 : Type} (f : S1 -> S1) : M (S1 * S2) unit :=
  fun s => (Normal tt, (f (fst s), snd s)).

End Eff.
Import Eff.

Notation "'let!' x ':=' m 'in' k" := (bind m (fun x => k))
  (at level 10, x name, m at level 100, k at level 200, only parsing).
Notation "m '>>>' k" := (bind m (fun _ => k))
  (at level 100, k at level 200, right associativity, only parsing).

(** ** Shapes of the collaborators' answers *)

Record AuthUser := mkAuthUser { au_id : string; au_email : string }.

(** [{ data: { user }, error }] as the identity provider returns it. *)
Record AuthResponse := mkAuthResponse {
  auth_user : option AuthUser;
  auth_error : option JsError
}.

(** [{ data, error }] as the directory store returns it. *)
Record PgResponse (A : Type) := mkPgResponse {
  pg_data : option A;
  pg_error : option JsError
}.
Arguments mkPgResponse {A} pg_data pg_error.
Arguments pg_data {A} p.
Arguments pg_error {A} p.

(** The columns [fetchUserProfile] selects:
    [id, email, full_name, is_active, needs_password_reset, roles(name)]. *)
Record Profile := mkProfile {
  prof_id : string;
  prof_email : string;
  prof_full_name : string;
  prof_is_active : bool;
  prof_needs_password_reset : option bool;
  prof_role : option string
}.

(** ** src/utils/api.ts and src/lib/supabase.ts *)

Module Api.

(** The JSON body of a response of the [update-password] function. *)
Record ApiJson := mkApiJson {
  json_error : option string;
  json_message : option string;
  json_user : option AuthUser
}.

Record HttpResponse := mkHttpResponse {
  http_ok : bool;
  http_status : nat;
  http_json : ApiJson
}.

Record Session := mkSession { access_token : option string }.

(** The calls the browser client makes, over a backend state [B]. *)
Record Supabase (B : Type) := mkSupabase {
  auth_getSession : B -> option Session * B;
  auth_getUser : B -> option AuthUser * B;
  auth_updateUser : string -> B -> AuthResponse * B;
  users_select_profile : string -> B -> PgResponse Profile * B;
  users_update_needs_password_reset : string -> bool -> B -> option JsError * B;
  fetch_update_password : string -> string -> bool -> B -> HttpResponse * B
}.
Arguments auth_getSession {B} s.
Arguments auth_getUser {B} s.
Arguments auth_updateUser {B} s.
Arguments users_select_profile {B} s.
Arguments users_update_needs_password_reset {B} s.
Arguments fetch_update_password {B} s.

(** [new ApiError(status, message)]. *)
Definition ApiError (status : nat) (msg : string) : JsError :=
  mkError "ApiError" msg.

(** [session?.access_token], when truthy. *)
Definition session_token (s : option Session) : option string :=
  match s with
  | Some sess =>
      match access_token sess with
      | Some t => if truthy t then Some t else None
      | None => None
      end
  | None => None
  end.

(** [getAuthHeaders]: the bearer token of the current session. *)
Definition getAuthHeaders {B : Type} (sb : Supabase B) : M B string :=
  let! session := call (auth_getSession sb) in
  match session_token session with
  | None => throw (mkError "Error" "No active session")
  | Some t => ret t
  end.

(** [data.error || 'Request failed']. *)
Definition error_or_default (e : option string) (d : string) : string :=
  match e with
  | Some m => or_else m d
  | None => d
  end.

Definition handleResponse {S : Type} (response : HttpResponse) : M S ApiJson :=
  let data := http_json response in
  if negb (http_ok response) then
    throw (ApiError (http_status response)
                    (error_or_default (json_error data) "Request failed"))
  else ret data.

(** [authApi.updatePassword]: it declares two parameters, so a third
    argument passed by a caller is ignored. *)
Definition updatePassword {B : Type} (sb : Supabase B)
  (newPassword : string) (clearNeedsPasswordReset : bool) : M B ApiJson :=
  let! headers := getAuthHeaders sb in
  let! response := call (fetch_update_password sb headers newPassword
                                               clearNeedsPasswordReset) in
  handleResponse response.

End Api.
Import Api.

(** ** src/contexts/AuthContext.tsx *)

Module AuthContext.

(** The state held by [AuthProvider], next to the backend it talks to. *)
Record AuthState (B : Type) := mkAuthState {
  st_user : option Profile;
  st_loading : bool;
  st_error : option string;
  st_backend : B
}.
Arguments mkAuthState {B} st_user st_loading st_error st_backend.
Arguments st_user {B} a.
Arguments st_loading {B} a.
Arguments st_error {B} a.
Arguments st_backend {B} a.

Section Provider.
Context {B : Type} (sb : Supabase B).

Definition setUser (u : option Profile) : M (AuthState B) unit :=
  modify (fun st => mkAuthState u (st_loading st) (st_error st) (st_backend st)).

Definition setLoading (b : bool) : M (AuthState B) unit :=
  modify (fun st => mkAuthState (st_user st) b (st_error st) (st_backend st)).

Definition setError (e : option string) : M (AuthState B) unit :=
  modify (fun st => mkAuthState (st_user st) (st_loading st) e (st_backend st)).

(** Run a backend computation inside the provider. *)
Definition remote {A : Type} (m : M B A) : M (AuthState B) A :=
  fun st =>
    let '(c, b') := m (st_backend st) in
    (c, mkAuthState (st_user st) (st_loading st) (st_error st) b').

(** [fetchUserProfile]: the row, or [null] when the query reports an error. *)
Definition fetchUserProfile (userId : string)
  : M (AuthState B) (option Profile) :=
  let! r := remote (call (users_select_profile sb userId)) in
  match pg_error r with
  | Some _ => ret None
  | None => ret (pg_data r)
  end.

Definition refreshUser : M (AuthState B) unit :=
  let! sessionUser := remote (call (auth_getUser sb)) in
  match sessionUser with
  | Some su =>
      let! profile := fetchUserProfile (au_id su) in
      setUser profile
  | None => ret tt
  end.

(** What [changePassword] keeps in [result]: the only field it reads is
    [user]. *)
Record PasswordResult := mkPasswordResult {
  res_message : option string;
  res_user : option AuthUser
}.

(** [result?.user?.id], when truthy. *)
Definition result_user_id (r : PasswordResult) : option string :=
  match res_user r with
  | Some u => if truthy (au_id u) then Some (au_id u) else None
  | None => None
  end.

(** Truthiness of the optional [accessToken] argument. *)
Definition token_given (accessToken : option string) : bool :=
  match accessToken with
  | Some t => truthy t
  | None => false
  end.

(** Step 1 of [changePassword]: set the credential, through the
    [update-password] function when a token is given and through the
    session otherwise. *)
Definition setCredential (newPassword : string) (clearNeedsPasswordReset : bool)
  (accessToken : option string) : M (AuthState B) PasswordResult :=
  if token_given accessToken then
    let! data := remote (Api.updatePassword sb newPassword clearNeedsPasswordReset) in
    ret (mkPasswordResult (json_message data) (json_user data))
  else
    let! r := remote (call (auth_updateUser sb newPassword)) in
    match auth_error r with
    | Some e => throw e
    | None =>
        refreshUser >>>
        ret (mkPasswordResult None (auth_user r))
    end.

(** Step 2 of [changePassword]: clear the flag in the [users] table. *)
Definition clearFlag (clearNeedsPasswordReset : bool) (result : PasswordResult)
  : M (AuthState B) unit :=
  match (if clearNeedsPasswordReset then result_user_id result else None) with
  | Some uid =>
      let! updateError := remote (call (users_update_needs_password_reset sb uid false)) in
      match updateError with
      | Some e => throw e
      | None => ret tt
      end
  | None => ret tt
  end.

Definition changePassword (newPassword : string) (clearNeedsPasswordReset : bool)
  (accessToken : option string) : M (AuthState B) PasswordResult :=
  setLoading true >>>
  setError None >>>
  finally
    (try_catch
       (let! result := setCredential newPassword clearNeedsPasswordReset
                                     accessToken in
        clearFlag clearNeedsPasswordReset result >>>
        ret result)
       (fun err =>
          setError (Some (or_else (err_message err) "Unexpected error")) >>>
          throw err))
    (setLoading false).

End Provider.

End AuthContext.
Import AuthContext.

(** ** src/pages/ResetPasswordPage.tsx *)

Module ResetPasswordPage.

Record PageState := mkPage {
  password : string;
  confirmPassword : string;
  showPassword : bool;
  message : option string;
  isSuccess : bool;
  isLoading : bool;
  accessToken : option string;
  passwordValidation : option PasswordValidationResult;
  redirect : option string
}.

Definition setMessage (m : option string) (p : PageState) : PageState :=
  mkPage (password p) (confirmPassword p) (showPassword p) m (isSuccess p)
         (isLoading p) (accessToken p) (passwordValidation p) (redirect p).

Definition setIsSuccess (b : bool) (p : PageState) : PageState :=
  mkPage (password p) (confirmPassword p) (showPassword p) (message p) b
         (isLoading p) (accessToken p) (passwordValidation p) (redirect p).

Definition setIsLoading (b : bool) (p : PageState) : PageState :=
  mkPage (password p) (confirmPassword p) (showPassword p) (message p)
         (isSuccess p) b (accessToken p) (passwordValidation p) (redirect p).

Definition setPassword (s : string) (p : PageState) : PageState :=
  mkPage s (confirmPassword p) (showPassword p) (message p) (isSuccess p)
         (isLoading p) (accessToken p) (passwordValidation p) (redirect p).

Definition setConfirmPassword (s : string) (p : PageState) : PageState :=
  mkPage (password p) s (showPassword p) (message p) (isSuccess p)
         (isLoading p) (accessToken p) (passwordValidation p) (redirect p).

(** [setTimeout(() => navigate(to, { replace: true }), 2000)]. *)
Definition scheduleNavigate (to : string) (p : PageState) : PageState :=
  mkPage (password p) (confirmPassword p) (showPassword p) (message p)
         (isSuccess p) (isLoading p) (accessToken p) (passwordValidation p)
         (Some to).

(** [passwordValidation?.isValid], as a condition. *)
Definition validation_ok (v : option PasswordValidationResult) : bool :=
  match v with
  | Some r => isValid r
  | None => false
  end.

Definition msg_mismatch : string := "Passwords do not match.".
Definition msg_weak : string := "Password does not meet strength requirements.".
Definition msg_no_token : string :=
  "Invalid reset link. Please request a new password reset email.".
Definition msg_success : string :=
  "Your password has been successfully reset. Redirecting to login page...".
Definition msg_token_expired : string :=
  "This reset link has expired or is invalid. Please request a new password reset email.".

(** The message the [catch] block shows for a thrown error. *)
Definition failure_message (err : JsError) : string :=
  let errorMessage := or_else (err_message err) "Failed to reset password." in
  if str_includes "expired" errorMessage || str_includes "invalid" errorMessage
  then msg_token_expired
  else errorMessage.

Section Page.
Context {B : Type} (sb : Supabase B).

Definition handleSubmit : M (PageState * AuthState B) unit :=
  modify_fst (setMessage None) >>>
  modify_fst (setIsSuccess false) >>>
  let! page := gets fst in
  if negb (String.eqb (password page) (confirmPassword page)) then
    modify_fst (setMessage (Some msg_mismatch))
  else if negb (validation_ok (passwordValidation page)) then
    modify_fst (setMessage (Some msg_weak))
  else if negb (token_given (accessToken page)) then
    modify_fst (setMessage (Some msg_no_token))
  else
    modify_fst (setIsLoading true) >>>
    finally
      (try_catch
         (on_snd (changePassword sb (password page) true None) >>>
          modify_fst (setMessage (Some msg_success)) >>>
          modify_fst (setIsSuccess true) >>>
          modify_fst (setPassword "") >>>
          modify_fst (setConfirmPassword "") >>>
          modify_fst (scheduleNavigate "/login"))
         (fun err =>
            modify_fst (setMessage (Some (failure_message err))) >>>
            modify_fst (setIsSuccess false)))
      (modify_fst (setIsLoading false)).

End Page.

End ResetPasswordPage.
Import ResetPasswordPage.

(** ** supabase/functions/admin-users/index.ts *)

Module AdminUsers.

(** The fields the handler destructures from the JSON body; a field the
    body leaves out is [None]. *)
Record Body := mkBody {
  b_email : string;
  b_password : string;
  b_full_name : string;
  b_role_id : string;
  b_menu_access : option (list string);
  b_sub_menu_access : option (gmap string (list string));
  b_component_access : option (list string);
  b_is_active : option bool;
  b_needs_password_reset : option bool
}.

(** A request: [req_body] is [None] when [req.json()] rejects. *)
Record Request := mkRequest {
  req_method : string;
  req_pathname : string;
  req_authorization : option string;
  req_body : option Body
}.

Inductive ResponseBody :=
| NoBody
| ErrorBody (error : string)
| UsersBody (users : option (list User))
| UserBody (user : option User)
| MessageBody (msg : string).

Record Response := mkResponse { status : nat; body : ResponseBody }.

(** The row [select('role_id, roles(name)')] yields. *)
Record RoleRow := mkRoleRow { rr_role_id : option string; rr_roles : option string }.

(** The object passed to [insert]. *)
Record InsertRow := mkInsertRow {
  ins_id : string;
  ins_email : string;
  ins_full_name : string;
  ins_role_id : string;
  ins_menu_access : list string;
  ins_sub_menu_access : gmap string (list string);
  ins_component_access : list string;
  ins_needs_password_reset : bool
}.

(** The object passed to [update]. *)
Record Patch := mkPatch {
  pt_full_name : string;
  pt_role_id : string;
  pt_menu_access : option (list string);
  pt_sub_menu_access : option (gmap string (list string));
  pt_component_access : option (list string);
  pt_is_active : option bool;
  pt_needs_password_reset : option bool
}.

(** The calls the handler makes with the service-role client. *)
Inductive Event :=
| EvGetUser (token : string)
| EvSelectRole (userId : string)
| EvSelectUsers
| EvCreateUser (email password : string)
| EvInsertUser (row : InsertRow)
| EvDeleteUser (userId : string)
| EvGenerateLink (email redirectTo : string)
| EvUpdateUser (userId : string) (patch : Patch)
| EvSelectEmail (userId : string).

(** The calls as the handler uses them. The deprovisioning call and the
    reset notice may reject as well as resolve: the first is awaited under
    the outer [try] only, the second under a [try] of its own. *)
Record Service (B : Type) := mkService {
  svc_getUser : string -> B -> AuthResponse * B;
  svc_select_role : string -> B -> PgResponse RoleRow * B;
  svc_select_users : B -> PgResponse (list User) * B;
  svc_createUser : string -> string -> B -> AuthResponse * B;
  svc_insert_user : InsertRow -> B -> PgResponse User * B;
  svc_deleteUser : string -> B -> completion (option JsError) * B;
  svc_generateLink : string -> string -> B -> completion (option JsError) * B;
  svc_update_user : string -> Patch -> B -> PgResponse User * B;
  svc_select_email : string -> B -> option string * B
}.
Arguments svc_getUser {B} s.
Arguments svc_select_role {B} s.
Arguments svc_select_users {B} s.
Arguments svc_createUser {B} s.
Arguments svc_insert_user {B} s.
Arguments svc_deleteUser {B} s.
Arguments svc_generateLink {B} s.
Arguments svc_update_user {B} s.
Arguments svc_select_email {B} s.

(** The backend together with the calls made on it so far, oldest first. *)
Record Traced (B : Type) := mkTraced { backend : B; trace : list Event }.
Arguments mkTraced {B} backend trace.
Arguments backend {B} t.
Arguments trace {B} t.

(** A call that resolves to a value. *)
Definition invoke {B A : Type} (ev : Event) (op : B -> A * B) : M (Traced B) A :=
  fun w =>
    let '(a, b') := op (backend w) in
    (Normal a, mkTraced b' (trace w ++ [ev])).

(** A call that may reject. *)
Definition invoke_rejecting {B A : Type} (ev : Event)
  (op : B -> completion A * B) : M (Traced B) A :=
  fun w =>
    let '(c, b') := op (backend w) in
    (c, mkTraced b' (trace w ++ [ev])).

Definition json (st : nat) (b : ResponseBody) : Response := mkResponse st b.

(** [Deno.env.get('FRONTEND_BASE_URL') || 'http://localhost:5173']. *)
Definition frontendBaseUrl (env : option string) : string :=
  match env with
  | Some u => or_else u "http://localhost:5173"
  | None => "http://localhost:5173"
  end.

(** [userError || !userData || userData.roles?.name !== 'admin']. *)
Definition not_admin (r : PgResponse RoleRow) : bool :=
  match pg_error r, pg_data r with
  | Some _, _ => true
  | None, None => true
  | None, Some row =>
      match rr_roles row with
      | Some n => negb (String.eqb n "admin")
      | None => true
      end
  end.

Definition or_nil {A : Type} (l : option (list A)) : list A :=
  match l with Some v => v | None => [] end.

Definition or_empty_object (o : option (gmap string (list string)))
  : gmap string (list string) :=
  match o with Some v => v | None => ∅ end.

Definition is_true_opt (o : option bool) : bool :=
  match o with Some b => b | None => false end.

Section Handler.
Context {B : Type} (svc : Service B) (FRONTEND_BASE_URL : option string).

(** The password-reset notice, inside its own [try]/[catch]: neither a
    returned error nor a rejection reaches the caller. *)
Definition notify (email : string) : M (Traced B) unit :=
  try_catch
    (let! _ := invoke_rejecting
                 (EvGenerateLink email
                    (frontendBaseUrl FRONTEND_BASE_URL +:+ "/reset-password"))
                 (svc_generateLink svc email
                    (frontendBaseUrl FRONTEND_BASE_URL +:+ "/reset-password")) in
     ret tt)
    (fun _ => ret tt).

(** The [GET] branch. *)
Definition listUsers : M (Traced B) Response :=
  let! r := invoke EvSelectUsers (svc_select_users svc) in
  match pg_error r with
  | Some e => ret (json 500 (ErrorBody (err_message e)))
  | None => ret (json 200 (UsersBody (pg_data r)))
  end.

(** [await req.json()]. *)
Definition parseBody (req : Request) : M (Traced B) Body :=
  match req_body req with
  | Some b => ret b
  | None => throw (mkError "SyntaxError" "Unexpected end of JSON input")
  end.

(** The [POST] branch. [authUser.user.id] is read without a check, so a
    provider answer with neither error nor user throws. *)
Definition createUser (req : Request) : M (Traced B) Response :=
  let! b := parseBody req in
  let! authUser := invoke (EvCreateUser (b_email b) (b_password b))
                          (svc_createUser svc (b_email b) (b_password b)) in
  match auth_error authUser with
  | Some e => ret (json 400 (ErrorBody (err_message e)))
  | None =>
      match auth_user authUser with
      | None => throw (TypeError "Cannot read properties of null (reading 'id')")
      | Some au =>
          let row := mkInsertRow (au_id au) (b_email b) (b_full_name b)
                       (b_role_id b) (or_nil (b_menu_access b))
                       (or_empty_object (b_sub_menu_access b))
                       (or_nil (b_component_access b)) true in
          let! inserted := invoke (EvInsertUser row) (svc_insert_user svc row) in
          match pg_error inserted with
          | Some profileError =>
              let! _ := invoke_rejecting (EvDeleteUser (au_id au))
                                         (svc_deleteUser svc (au_id au)) in
              ret (json 400 (ErrorBody (err_message profileError)))
          | None =>
              notify (b_email b) >>>
              ret (json 201 (UserBody (pg_data inserted)))
          end
      end
  end.

(** The [PUT] branch. *)
Definition updateUser (req : Request) : M (Traced B) Response :=
  let userId := last_segment (req_pathname req) in
  let! b := parseBody req in
  let patch := mkPatch (b_full_name b) (b_role_id b) (b_menu_access b)
                 (b_sub_menu_access b) (b_component_access b) (b_is_active b)
                 (b_needs_password_reset b) in
  let! updated := invoke (EvUpdateUser userId patch)
                         (svc_update_user svc userId patch) in
  match pg_error updated with
  | Some e => ret (json 400 (ErrorBody (err_message e)))
  | None =>
      (if is_true_opt (b_needs_password_reset b) then
         let! currentEmail := invoke (EvSelectEmail userId)
                                     (svc_select_email svc userId) in
         match present currentEmail with
         | Some em => notify em
         | None => ret tt
         end
       else ret tt) >>>
      ret (json 200 (UserBody (pg_data updated)))
  end.

(** The [DELETE] branch. *)
Definition deleteUser (req : Request) : M (Traced B) Response :=
  let userId := last_segment (req_pathname req) in
  let! authError := invoke_rejecting (EvDeleteUser userId)
                                     (svc_deleteUser svc userId) in
  match authError with
  | Some e => ret (json 400 (ErrorBody (err_message e)))
  | None => ret (json 200 (MessageBody "User deleted successfully"))
  end.

(** The operations behind the guard, chosen by method and path. *)
Definition dispatch (req : Request) : M (Traced B) Response :=
  let method := req_method req in
  if String.eqb method "GET" && endsWith "/admin-users" (req_pathname req)
  then listUsers
  else if String.eqb method "POST" && endsWith "/admin-users" (req_pathname req)
  then createUser req
  else if String.eqb method "PUT" then updateUser req
  else if String.eqb method "DELETE" then deleteUser req
  else ret (json 405 (ErrorBody "Method not allowed")).

(** The function given to [Deno.serve]. *)
Definition handler (req : Request) : M (Traced B) Response :=
  if String.eqb (req_method req) "OPTIONS" then ret (json 200 NoBody)
  else
    try_catch
      (match present (req_authorization req) with
       | None => ret (json 401 (ErrorBody "Missing authorization header"))
       | Some authHeader =>
           let token := replace_first "Bearer " "" authHeader in
           let! auth := invoke (EvGetUser token) (svc_getUser svc token) in
           match auth_error auth, auth_user auth with
           | None, Some user =>
               let! userData := invoke (EvSelectRole (au_id user))
                                       (svc_select_role svc (au_id user)) in
               if not_admin userData
               then ret (json 403 (ErrorBody "Insufficient permissions"))
               else dispatch req
           | _, _ => ret (json 401 (ErrorBody "Invalid authorization token"))
           end
       end)
      (fun _ => ret (json 500 (ErrorBody "Internal server error"))).

End Handler.

End AdminUsers.
Import AdminUsers.

(** ** src/contexts/AuthContext.tsx: signing in, signing out, reset mail *)

Module Session.

(** The further calls of the identity provider these operations make. The
    sign-out call sits in a [try] block, so it is given the chance to
    reject. *)
Record AuthCalls (B : Type) := mkAuthCalls {
  auth_signInWithPassword : string -> string -> B -> AuthResponse * B;
  auth_signOut : B -> completion (option JsError) * B;
  auth_resetPasswordForEmail : string -> string -> B -> option JsError * B
}.
Arguments auth_signInWithPassword {B} a.
Arguments auth_signOut {B} a.
Arguments auth_resetPasswordForEmail {B} a.

(** The provider state next to the [userProfile] item of [localStorage]:
    [None] when the item is absent, otherwise the value that was
    serialised into it. *)
Record Browser (B : Type) := mkBrowser {
  provider : AuthState B;
  userProfile : option (option Profile)
}.
Arguments mkBrowser {B} provider userProfile.
Arguments provider {B} b.
Arguments userProfile {B} b.

Section Provider.
Context {B : Type} (sb : Supabase B) (ac : AuthCalls B) (origin : string).

Definition in_provider {A : Type} (m : M (AuthState B) A) : M (Browser B) A :=
  fun w =>
    let '(c, st) := m (provider w) in
    (c, mkBrowser st (userProfile w)).

(** [localStorage.setItem('userProfile', JSON.stringify(profile))]. *)
Definition setItem (profile : option Profile) : M (Browser B) unit :=
  modify (fun w => mkBrowser (provider w) (Some profile)).

(** [localStorage.removeItem('userProfile')]. *)
Definition removeItem : M (Browser B) unit :=
  modify (fun w => mkBrowser (provider w) None).

(** [profile?.is_active], as a condition. *)
Definition profile_active (profile : option Profile) : bool :=
  match profile with
  | Some p => prof_is_active p
  | None => false
  end.

Definition signIn (email password : string) : M (Browser B) unit :=
  in_provider (setLoading true) >>>
  in_provider (setError None) >>>
  finally
    (try_catch
       (let! r := in_provider
                    (remote (call (auth_signInWithPassword ac email password))) in
        match auth_error r with
        | Some e => throw e
        | None =>
            match auth_user r with
            | Some u =>
                let! profile := in_provider (fetchUserProfile sb (au_id u)) in
                if negb (profile_active profile)
                then throw (mkError "Error" "Account is inactive")
                else in_provider (setUser profile) >>> setItem profile
            | None => ret tt
            end
        end)
       (fun err =>
          in_provider (setError (Some (err_message err))) >>> throw err))
    (in_provider (setLoading false)).

Definition signOut : M (Browser B) unit :=
  in_provider (setLoading true) >>>
  finally
    (try_catch
       (let! _ := in_provider (remote (auth_signOut ac)) in
        in_provider (setUser None) >>> removeItem)
       (fun err => in_provider (setError (Some (err_message err)))))
    (in_provider (setLoading false)).

Definition sendPasswordResetEmail (email : string) : M (Browser B) unit :=
  in_provider (setLoading true) >>>
  in_provider (setError None) >>>
  finally
    (try_catch
       (let! error := in_provider
                        (remote (call (auth_resetPasswordForEmail ac email
                                         (origin +:+ "/reset-password")))) in
        match error with
        | Some e => throw e
        | None => ret tt
        end)
       (fun err =>
          in_provider (setError (Some (err_message err))) >>> throw err))
    (in_provider (setLoading false)).

End Provider.

End Session.
Import Session.

(** ** src/pages/ResetPasswordPage.tsx: reading the token off the address *)

Module ResetLink.

(** The address of the page as the two [URLSearchParams] objects the code
    builds from it: the pairs of the hash fragment and those of the query,
    in order. *)
Record Location := mkLocation {
  hash_params : list (string * string);
  search_params : list (string * string)
}.

(** [URLSearchParams.prototype.get]: the value of the first pair with that
    name, [null] when there is none. *)
Definition searchParams_get (params : list (string * string)) (name : string)
  : option string :=
  snd <$> List.find (fun kv => String.eqb (fst kv) name) params.

Definition setAccessToken (t : option string) (p : PageState) : PageState :=
  mkPage (password p) (confirmPassword p) (showPassword p) (message p)
         (isSuccess p) (isLoading p) t (passwordValidation p) (redirect p).

Definition msg_missing_link : string :=
  "Invalid or missing reset link. Please request a new one.".

(** The token the effect settles on: the hash one when truthy, else the
    query one. *)
Definition link_token (loc : Location) : option string :=
  match present (searchParams_get (hash_params loc) "access_token") with
  | Some t => Some t
  | None => searchParams_get (search_params loc) "token"
  end.

(** [extractToken]: a token that is found is kept and the address is
    replaced by origin and path alone; otherwise the page shows a message. *)
Definition extractToken (w : PageState * Location) : PageState * Location :=
  match present (link_token (snd w)) with
  | Some token => (setAccessToken (Some token) (fst w), mkLocation [] [])
  | None =>
      (setIsSuccess false (setMessage (Some msg_missing_link) (fst w)), snd w)
  end.

End ResetLink.
Import ResetLink.

(** ** src/pages/AdminUsers.tsx: the search box *)

Module AdminUsersPage.

Section Search.
(** [String.prototype.toLowerCase]. *)
Variable toLowerCase : string -> string.

Definition matches (searchTerm : string) (user : User) : bool :=
  str_includes (toLowerCase searchTerm) (toLowerCase (email user)) ||
  str_includes (toLowerCase searchTerm) (toLowerCase (full_name user)).

Definition filteredUsers (users : list User) (searchTerm : string) : list User :=
  List.filter (matches searchTerm) users.

End Search.

End AdminUsersPage.
Import AdminUsersPage.

(** ** src/utils/api.ts: the admin-users client *)

Module AdminUsersApi.

(** [response.ok]: a status from 200 to 299. *)
Definition response_ok (response : Response) : bool :=
  Nat.leb 200 (status response) && Nat.leb (status response) 299.

(** [data.error] of a parsed body. *)
Definition body_error (data : ResponseBody) : option string :=
  match data with
  | ErrorBody e => Some e
  | _ => None
  end.

(** [handleResponse] on a response of the admin-users function. A response
    without a body is not JSON, and [response.json()] rejects on it. *)
Definition handleResponse {S : Type} (response : Response) : M S ResponseBody :=
  match body response with
  | NoBody => throw (mkError "SyntaxError" "Unexpected end of JSON input")
  | data =>
      if negb (response_ok response) then
        throw (ApiError (status response)
                        (error_or_default (body_error data) "Request failed"))
      else ret data
  end.

(** A character that a URL path segment carries unchanged: a letter, a
    digit, a hyphen or an underscore. *)
Definition id_char (c : ascii) : bool :=
  let n := nat_of_ascii c in
  (Nat.leb 48 n && Nat.leb n 57) || (Nat.leb 65 n && Nat.leb n 90) ||
  (Nat.leb 97 n && Nat.leb n 122) || Nat.eqb n 45 || Nat.eqb n 95.

Fixpoint plain_id (s : string) : bool :=
  match s with
  | EmptyString => true
  | String c rest => id_char c && plain_id rest
  end.

Section Client.
(** [fetch] is whatever answers the requests; [API_BASE_PATH] is the path
    of [API_BASE_URL]. A request is given by its method, the path of its
    URL, its Authorization header and the JSON of its body. *)
Context {B : Type} (sb : Supabase B).
Context (fetch : Request -> M (Traced B) Response) (API_BASE_PATH : string).

Definition on_backend {A : Type} (m : M B A) : M (Traced B) A :=
  fun w =>
    let '(c, b') := m (backend w) in
    (c, mkTraced b' (trace w)).

(** The header [getAuthHeaders] builds from the token. *)
Definition authorization (token : string) : option string :=
  Some ("Bearer " +:+ token).

Definition getUsers : M (Traced B) ResponseBody :=
  let! headers := on_backend (getAuthHeaders sb) in
  let! response := fetch (mkRequest "GET" (API_BASE_PATH +:+ "/admin-users")
                                    (authorization headers) None) in
  handleResponse response.

Definition createUser (userData : Body) : M (Traced B) ResponseBody :=
  let! headers := on_backend (getAuthHeaders sb) in
  let! response := fetch (mkRequest "POST" (API_BASE_PATH +:+ "/admin-users")
                                    (authorization headers) (Some userData)) in
  handleResponse response.

(** [updateUser] and [deleteUser] put the identifier into the URL; the
    path below is the one that URL has when the identifier is a
    [plain_id]. *)
Definition updateUser (userId : string) (userData : Body)
  : M (Traced B) ResponseBody :=
  let! headers := on_backend (getAuthHeaders sb) in
  let! response := fetch (mkRequest "PUT"
                            (API_BASE_PATH +:+ "/admin-users" +:+ "/" +:+ userId)
                            (authorization headers) (Some userData)) in
  handleResponse response.

Definition deleteUser (userId : string) : M (Traced B) ResponseBody :=
  let! headers := on_backend (getAuthHeaders sb) in
  let! response := fetch (mkRequest "DELETE"
                            (API_BASE_PATH +:+ "/admin-users" +:+ "/" +:+ userId)
                            (authorization headers) None) in
  handleResponse response.

End Client.

(** The requests of the client are answered by the admin-users function. *)
Definition deployed {B : Type} (svc : Service B) (env : option string)
  : Request -> M (Traced B) Response :=
  handler svc env.

End AdminUsersApi.

(** ** A reference backend

    A concrete identity provider and directory store on which the
    operations above can be run: identities and rows are finite maps, and
    [faults] names the calls that fail and the error each one reports. A
    failing call leaves the backend as it was. *)

Module Reference.

Record Backend := mkBackend {
  identities : gmap string (string * string);
  directory : gmap string User;
  roles_table : gmap string Role;
  session : option string;
  bearer_tokens : gmap string string;
  faults : gmap string JsError
}.

Definition with_identities (f : gmap string (string * string) -> gmap string (string * string))
  (b : Backend) : Backend :=
  mkBackend (f (identities b)) (directory b) (roles_table b) (session b)
            (bearer_tokens b) (faults b).

Definition with_directory (f : gmap string User -> gmap string User)
  (b : Backend) : Backend :=
  mkBackend (identities b) (f (directory b)) (roles_table b) (session b)
            (bearer_tokens b) (faults b).

Definition fault (name : string) (b : Backend) : option JsError := faults b !! name.

Definition identity_of (b : Backend) (uid : string) : option AuthUser :=
  (fun ep => mkAuthUser uid (fst ep)) <$> identities b !! uid.

(** The stored credential of a principal. *)
Definition credential (b : Backend) (uid : string) : option string :=
  snd <$> identities b !! uid.

(** The [needs_password_reset] column of a principal's row. *)
Definition reset_flag (b : Backend) (uid : string) : option bool :=
  directory b !! uid ≫= needs_password_reset.

Definition session_access_token (uid : string) : string := "session-of-" +:+ uid.

Definition set_flag (v : bool) (u : User) : User :=
  mkUser (id u) (email u) (full_name u) (role_id u) (menu_access u)
         (sub_menu_access u) (component_access u) (is_active u) (created_at u)
         (Some v) (roles u).

Definition set_password (pw : string) (ep : string * string) : string * string :=
  (fst ep, pw).

Definition no_rows : JsError :=
  mkError "PostgrestError" "JSON object requested, multiple (or no) rows returned".

Definition ref_getSession (b : Backend) : option Session * Backend :=
  ((fun uid => mkSession (Some (session_access_token uid))) <$> session b, b).

Definition ref_getUser (b : Backend) : option AuthUser * Backend :=
  (session b ≫= identity_of b, b).

Definition ref_updateUser (pw : string) (b : Backend) : AuthResponse * Backend :=
  match fault "auth.updateUser" b with
  | Some e => (mkAuthResponse None (Some e), b)
  | None =>
      match session b ≫= identity_of b with
      | None =>
          (mkAuthResponse None
             (Some (mkError "AuthSessionMissingError" "Auth session missing!")), b)
      | Some au =>
          (mkAuthResponse (Some au) None,
           with_identities (alter (set_password pw) (au_id au)) b)
      end
  end.

Definition profile_of (u : User) : Profile :=
  mkProfile (id u) (email u) (full_name u) (is_active u)
            (needs_password_reset u) (role_name <$> roles u).

Definition ref_select_profile (uid : string) (b : Backend)
  : PgResponse Profile * Backend :=
  match fault "users.select" b with
  | Some e => (mkPgResponse None (Some e), b)
  | None =>
      match directory b !! uid with
      | Some u => (mkPgResponse (Some (profile_of u)) None, b)
      | None => (mkPgResponse None (Some no_rows), b)
      end
  end.

Definition ref_update_flag (uid : string) (v : bool) (b : Backend)
  : option JsError * Backend :=
  match fault "users.update" b with
  | Some e => (Some e, b)
  | None => (None, with_directory (alter (set_flag v) uid) b)
  end.

Definition ref_fetch_update_password (bearer pw : string) (clear : bool)
  (b : Backend) : HttpResponse * Backend :=
  match fault "functions.update-password" b with
  | Some e =>
      (mkHttpResponse false 500 (mkApiJson (Some (err_message e)) None None), b)
  | None =>
      match session b ≫= identity_of b with
      | Some au =>
          if String.eqb bearer (session_access_token (au_id au)) then
            let b1 := with_identities (alter (set_password pw) (au_id au)) b in
            let b2 := if clear then with_directory (alter (set_flag false) (au_id au)) b1
                      else b1 in
            (mkHttpResponse true 200
               (mkApiJson None (Some "Password updated") (Some au)), b2)
          else
            (mkHttpResponse false 401 (mkApiJson (Some "Unauthorized") None None), b)
      | None =>
          (mkHttpResponse false 401 (mkApiJson (Some "Unauthorized") None None), b)
      end
  end.

Definition client : Supabase Backend :=
  mkSupabase Backend ref_getSession ref_getUser ref_updateUser ref_select_profile
             ref_update_flag ref_fetch_update_password.

Definition ref_svc_getUser (token : string) (b : Backend) : AuthResponse * Backend :=
  match fault "auth.getUser" b with
  | Some e => (mkAuthResponse None (Some e), b)
  | None =>
      match bearer_tokens b !! token ≫= identity_of b with
      | Some au => (mkAuthResponse (Some au) None, b)
      | None => (mkAuthResponse None (Some (mkError "AuthApiError" "invalid JWT")), b)
      end
  end.

Definition ref_svc_select_role (uid : string) (b : Backend)
  : PgResponse RoleRow * Backend :=
  match fault "users.select" b with
  | Some e => (mkPgResponse None (Some e), b)
  | None =>
      match directory b !! uid with
      | Some u =>
          (mkPgResponse (Some (mkRoleRow (Some (role_id u)) (role_name <$> roles u)))
                        None, b)
      | None => (mkPgResponse None (Some no_rows), b)
      end
  end.

Definition ref_svc_select_users (b : Backend) : PgResponse (list User) * Backend :=
  match fault "users.select" b with
  | Some e => (mkPgResponse None (Some e), b)
  | None => (mkPgResponse (Some (snd <$> map_to_list (directory b))) None, b)
  end.

Definition new_identity_id (email : string) : string := "id-" +:+ email.

Definition ref_svc_createUser (em pw : string) (b : Backend)
  : AuthResponse * Backend :=
  match fault "auth.admin.createUser" b with
  | Some e => (mkAuthResponse None (Some e), b)
  | None =>
      match identities b !! new_identity_id em with
      | Some _ =>
          (mkAuthResponse None
             (Some (mkError "AuthApiError"
                            "A user with this email address has already been registered")), b)
      | None =>
          (mkAuthResponse (Some (mkAuthUser (new_identity_id em) em)) None,
           with_identities (insert (new_identity_id em) (em, pw)) b)
      end
  end.

Definition row_of_insert (b : Backend) (r : InsertRow) : User :=
  mkUser (ins_id r) (ins_email r) (ins_full_name r) (ins_role_id r)
         (ins_menu_access r) (ins_sub_menu_access r) (ins_component_access r)
         true "1970-01-01T00:00:00Z" (Some (ins_needs_password_reset r))
         (roles_table b !! ins_role_id r).

Definition ref_svc_insert_user (r : InsertRow) (b : Backend)
  : PgResponse User * Backend :=
  match fault "users.insert" b with
  | Some e => (mkPgResponse None (Some e), b)
  | None =>
      match directory b !! ins_id r with
      | Some _ =>
          (mkPgResponse None
             (Some (mkError "PostgrestError"
                            "duplicate key value violates unique constraint")), b)
      | None =>
          (mkPgResponse (Some (row_of_insert b r)) None,
           with_directory (insert (ins_id r) (row_of_insert b r)) b)
      end
  end.

Definition ref_svc_deleteUser (uid : string) (b : Backend)
  : completion (option JsError) * Backend :=
  match fault "auth.admin.deleteUser.rejects" b with
  | Some e => (Throw e, b)
  | None =>
      match fault "auth.admin.deleteUser" b with
      | Some e => (Normal (Some e), b)
      | None =>
          match identities b !! uid with
          | None => (Normal (Some (mkError "AuthApiError" "User not found")), b)
          | Some _ =>
              (Normal None,
               with_directory (delete uid) (with_identities (delete uid) b))
          end
      end
  end.

Definition ref_svc_generateLink (em redirectTo : string) (b : Backend)
  : completion (option JsError) * Backend :=
  (Normal (fault "auth.admin.generateLink" b), b).

Definition apply_patch (b : Backend) (p : Patch) (u : User) : User :=
  mkUser (id u) (email u) (pt_full_name p) (pt_role_id p)
         (default (menu_access u) (pt_menu_access p))
         (default (sub_menu_access u) (pt_sub_menu_access p))
         (default (component_access u) (pt_component_access p))
         (default (is_active u) (pt_is_active p))
         (created_at u)
         (match pt_needs_password_reset p with
          | Some v => Some v
          | None => needs_password_reset u
          end)
         (roles_table b !! pt_role_id p).

Definition ref_svc_update_user (uid : string) (p : Patch) (b : Backend)
  : PgResponse User * Backend :=
  match fault "users.update" b with
  | Some e => (mkPgResponse None (Some e), b)
  | None =>
      match directory b !! uid with
      | Some u =>
          (mkPgResponse (Some (apply_patch b p u)) None,
           with_directory (insert uid (apply_patch b p u)) b)
      | None => (mkPgResponse None (Some no_rows), b)
      end
  end.

Definition ref_svc_select_email (uid : string) (b : Backend)
  : option string * Backend :=
  (email <$> directory b !! uid, b).

Definition service : Service Backend :=
  mkService Backend ref_svc_getUser ref_svc_select_role ref_svc_select_users
            ref_svc_createUser ref_svc_insert_user ref_svc_deleteUser
            ref_svc_generateLink ref_svc_update_user ref_svc_select_email.

(** An identity provider record with no directory row. *)
Definition orphaned (b : Backend) (uid : string) : bool :=
  match identities b !! uid, directory b !! uid with
  | Some _, None => true
  | _, _ => false
  end.

Definition with_fault (name : string) (e : JsError) (b : Backend) : Backend :=
  mkBackend (identities b) (directory b) (roles_table b) (session b)
            (bearer_tokens b) (<[name := e]> (faults b)).

Definition idle (b : Backend) : AuthState Backend := mkAuthState None false None b.

End Reference.

Import Reference.

(** ** Concrete principals, backends and requests *)

Module Scenario.

Definition member_role : Role := mkRole "member" "Regular member".
Definition admin_role : Role := mkRole "admin" "Administrator".

(** A member who has been told to change her password. *)
Definition alice : User :=
  mkUser "u1" "alice@example.org" "Alice" "r-member" ["dashboard"]
         {[ "dashboard" := ["overview"] ]} [] true "2024-01-01T00:00:00Z"
         (Some true) (Some member_role).

Definition root : User :=
  mkUser "u0" "root@example.org" "Root" "r-admin" [] ∅ [] true
         "2024-01-01T00:00:00Z" (Some false) (Some admin_role).

Definition old_password : string := "Old#Passw0rd".
Definition new_password : string := "N3w#Passw0rd".

(** Alice is signed in in the browser; the provider accepts two bearer
    tokens, one of root and one of an identity without a directory row. *)
Definition base : Backend :=
  mkBackend
    {[ "u0" := ("root@example.org", "R00t#Passw0rd");
       "u1" := ("alice@example.org", old_password);
       "u9" := ("ghost@example.org", "Gh0st#Passw0rd") ]}
    {[ "u0" := root; "u1" := alice ]}
    {[ "r-admin" := admin_role; "r-member" := member_role ]}
    (Some "u1")
    {[ "root-token" := "u0"; "ghost-token" := "u9" ]}
    ∅.

Definition store_error : JsError :=
  mkError "PostgrestError" "connection to the database was lost".


(** The reset page as filled in by a visitor whose link carried [token]. *)
Definition reset_page (token : option string) : PageState :=
  mkPage new_password new_password false None false false token
         (Some (mkValidation true "Password is strong" [])) None.

Definition bob_body : Body :=
  mkBody "bob@example.org" "T3mp#Passw0rd" "Bob" "r-member" None None None
         None None.

Definition create_request : Request :=
  mkRequest "POST" "/functions/v1/admin-users" (Some "Bearer root-token")
            (Some bob_body).

Definition bob_row : InsertRow :=
  mkInsertRow "id-bob@example.org" "bob@example.org" "Bob" "r-member" [] ∅ []
              true.

End Scenario.

(** ** The reference backend, signing in and out *)

Module ReferenceSession.

Definition with_session (o : option string) (b : Backend) : Backend :=
  mkBackend (identities b) (directory b) (roles_table b) o (bearer_tokens b)
            (faults b).

(** The identity whose email and password are the ones given. *)
Definition find_identity (b : Backend) (em pw : string) : option string :=
  fst <$> List.find
            (fun kv => String.eqb (fst (snd kv)) em && String.eqb (snd (snd kv)) pw)
            (map_to_list (identities b)).

Definition ref_signIn (em pw : string) (b : Backend) : AuthResponse * Backend :=
  match fault "auth.signInWithPassword" b with
  | Some e => (mkAuthResponse None (Some e), b)
  | None =>
      match find_identity b em pw with
      | Some uid =>
          (mkAuthResponse (Some (mkAuthUser uid em)) None, with_session (Some uid) b)
      | None =>
          (mkAuthResponse None
             (Some (mkError "AuthApiError" "Invalid login credentials")), b)
      end
  end.

Definition ref_signOut (b : Backend) : completion (option JsError) * Backend :=
  match fault "auth.signOut.rejects" b with
  | Some e => (Throw e, b)
  | None =>
      match fault "auth.signOut" b with
      | Some e => (Normal (Some e), b)
      | None => (Normal None, with_session None b)
      end
  end.

Definition ref_resetPasswordForEmail (em redirectTo : string) (b : Backend)
  : option JsError * Backend :=
  (fault "auth.resetPasswordForEmail" b, b).

Definition calls : AuthCalls Backend :=
  mkAuthCalls Backend ref_signIn ref_signOut ref_resetPasswordForEmail.

Definition fresh (b : Backend) : Browser Backend := mkBrowser (idle b) None.

(** Carol exists at the provider and in the directory, and is inactive. *)
Definition carol : User :=
  mkUser "u2" "carol@example.org" "Carol" "r-member" [] ∅ [] false
         "2024-01-01T00:00:00Z" (Some false) (Some Scenario.member_role).

Definition signed_out : Backend :=
  with_session None
    (with_directory (insert "u2" carol)
       (with_identities (insert "u2" ("carol@example.org", "Car0l#Passw0rd"))
          Scenario.base)).

End ReferenceSession.

(** A principal with no grants at all. *)
Definition bare_user (active : bool) (role : option string) : User :=
  mkUser "u1" "u1@example.org" "User One" "r1" [] ∅ [] active
         "2024-01-01T00:00:00Z" None ((fun n => mkRole n "") <$> role).

(** Two principals carry the same grants when their three grant sets are
    the same, whatever their roles and other fields. *)
Definition same_grants (u v : User) : Prop :=
  menu_access u = menu_access v /\
  sub_menu_access u = sub_menu_access v /\
  component_access u = component_access v.

(** * Properties of the access decisions *)

Lemma includes_In (x : string) (l : list string) :
  includes x l = true <-> In x l.
Proof.
  unfold includes. rewrite existsb_exists. split.
  - intros [y [Hin Heq]]. apply String.eqb_eq in Heq. now subst.
  - intros Hin. exists x. split; [assumption | apply String.eqb_refl].
Qed.

(** C1. An inactive principal is denied by each of the four decisions,
    whatever its role, its grant sets and the queried resource, action or
    identifier. *)
Theorem inactive_denied_everywhere (u : User) :
  is_active u = false ->
  (forall resource action, hasPermission (Some u) resource action = false) /\
  (forall menuId, hasMenuAccess (Some u) menuId = false) /\
  (forall menuId subMenuId,
      hasSubMenuAccess (Some u) menuId subMenuId = Normal false) /\
  (forall componentId, hasComponentAccess (Some u) componentId = false).
Proof.
  intros Hinactive.
  unfold hasPermission, hasMenuAccess, hasSubMenuAccess, hasComponentAccess.
  rewrite Hinactive. cbn. repeat split; reflexivity.
Qed.

Lemma inactive_denied_everywhere_witness :
  let u := mkUser "u7" "root@example.org" "Root" "r-admin" ["users"]
                  {[ "users" := ["list"] ]} ["delete-button"] false
                  "2024-01-01T00:00:00Z" None (Some (mkRole "admin" "all")) in
  hasPermission (Some u) "users" "read" = false /\
  hasMenuAccess (Some u) "users" = false /\
  hasSubMenuAccess (Some u) "users" "list" = Normal false /\
  hasComponentAccess (Some u) "delete-button" = false.
Proof.
  intros u.
  destruct (inactive_denied_everywhere u eq_refl) as (Hp & Hm & Hs & Hc).
  exact (conj (Hp _ _) (conj (Hm _) (conj (Hs _ _) (Hc _)))).
Defined.

(** C2, as stated, fails: an inactive principal whose role is "admin" is
    refused, because the activity guard comes before the admin short-cut. *)
Lemma admin_role_alone_not_sufficient :
  ~ (forall (u : User) (resource action : string),
        roleName u = Some "admin" ->
        hasPermission (Some u) resource action = true).
Proof.
  intros Hclaim.
  specialize (Hclaim (bare_user false (Some "admin")) "users" "read" eq_refl).
  discriminate Hclaim.
Qed.

(** C2, amended. Every active principal whose role name is "admin" is
    allowed every resource and every action. *)
Theorem active_admin_allowed_everything (u : User) (resource action : string) :
  is_active u = true ->
  roleName u = Some "admin" ->
  hasPermission (Some u) resource action = true.
Proof.
  intros Hactive Hrole. unfold hasPermission.
  rewrite Hactive, Hrole. reflexivity.
Qed.

Lemma active_admin_allowed_everything_witness :
  hasPermission (Some (bare_user true (Some "admin"))) "payroll" "shred" = true.
Proof.
  apply (active_admin_allowed_everything (bare_user true (Some "admin")));
    reflexivity.
Defined.


(** On the pairs it names, the table agrees with the code: an active
    principal that is not an admin is allowed such a pair exactly when its
    role is in the row. *)
Lemma explicit_rule_table_sound (u : User) (resource action : string)
  (allowed : list string) :
  is_active u = true ->
  roleName u <> Some "admin" ->
  explicit_rule_lookup resource action = Some allowed ->
  hasPermission (Some u) resource action =
  includes (role_or_empty (roleName u)) allowed.
Proof.
  intros Hactive Hrole. unfold hasPermission. rewrite Hactive.
  change (negb true) with false. cbv iota zeta.
  assert (Hnot : role_is (roleName u) "admin" = false).
  { destruct (roleName u) as [n|]; [|reflexivity]. cbn.
    apply String.eqb_neq. congruence. }
  rewrite Hnot.
  assert (Hinc : includes (role_or_empty (roleName u)) ["admin"] = false).
  { destruct (roleName u) as [n|]; [|reflexivity]. cbn.
    unfold or_else, truthy. cbn in Hnot.
    destruct (String.eqb_spec n ""); cbn; [reflexivity|].
    rewrite Hnot. reflexivity. }
  remember (includes (role_or_empty (roleName u))) as allowed_for eqn:Hdef.
  clear Hdef. unfold explicit_rule_lookup, explicit_rule_table, names_pair.
  cbn.
  destruct (String.eqb_spec resource "admin") as [->|_]; cbn.
  { destruct (String.eqb action "access"); cbn; intros H; inversion H.
    now rewrite Hinc. }
  destruct (String.eqb_spec resource "dashboard") as [->|_]; cbn.
  { destruct (String.eqb action "access"); cbn; intros H; inversion H.
    reflexivity. }
  destruct (String.eqb_spec resource "users") as [->|_]; cbn.
  { destruct (String.eqb action "read"); cbn; intros H; inversion H.
    now rewrite Hinc. }
  destruct (String.eqb_spec resource "reports") as [->|_]; cbn.
  { destruct (String.eqb action "view"); cbn;
      [intros H; inversion H; reflexivity|].
    destruct (String.eqb action "export"); cbn; intros H; inversion H.
    reflexivity. }
  destruct (String.eqb_spec resource "transactions") as [->|_]; cbn;
    [|discriminate].
  destruct (String.eqb action "create"); cbn;
    [intros H; inversion H; reflexivity|].
  destruct (String.eqb action "approve"); cbn; intros H; inversion H.
  now rewrite Hinc.
Qed.





(** C9, evaluated where it fails. For an active principal the menu and
    component checks return exactly the membership of the queried id in
    the grant set, and so does the sub-menu check whenever the menu id has
    an entry of its own in [sub_menu_access] or is not a name inherited
    from [Object.prototype]; principals with the same grant sets get the
    same answers whatever their roles, and some principal passes a
    role-based permission check while failing a menu check. At a menu id
    without an entry of its own that names an inherited property the
    sub-menu check is not decided by membership: the queried id is a
    member of no list there, and the check throws instead of returning
    [false]. *)
Theorem grant_checks_membership_except_inherited_ids :
  (forall u : User, is_active u = true ->
     (forall menuId,
         hasMenuAccess (Some u) menuId = true <-> In menuId (menu_access u)) /\
     (forall componentId,
         hasComponentAccess (Some u) componentId = true <->
         In componentId (component_access u)) /\
     (forall menuId subMenuId l,
         sub_menu_access u !! menuId = Some l ->
         exists b, hasSubMenuAccess (Some u) menuId subMenuId = Normal b /\
                   (b = true <-> In subMenuId l)) /\
     (forall menuId subMenuId,
         sub_menu_access u !! menuId = None ->
         ~ In menuId Object_prototype_keys ->
         hasSubMenuAccess (Some u) menuId subMenuId = Normal false) /\
     (forall menuId subMenuId,
         sub_menu_access u !! menuId = None ->
         In menuId Object_prototype_keys ->
         hasSubMenuAccess (Some u) menuId subMenuId =
         Throw (TypeError "user.sub_menu_access[menuId]?.includes is not a function"))) /\
  (forall u v : User, is_active u = true -> is_active v = true ->
     same_grants u v ->
     (forall menuId, hasMenuAccess (Some u) menuId = hasMenuAccess (Some v) menuId) /\
     (forall menuId subMenuId,
         hasSubMenuAccess (Some u) menuId subMenuId =
         hasSubMenuAccess (Some v) menuId subMenuId) /\
     (forall componentId,
         hasComponentAccess (Some u) componentId =
         hasComponentAccess (Some v) componentId)) /\
  (exists (p : User) (resource action menuId : string),
      hasPermission (Some p) resource action = true /\
      hasMenuAccess (Some p) menuId = false) /\
  (is_active Scenario.alice = true /\
   sub_menu_access Scenario.alice !! "toString" = None /\
   hasSubMenuAccess (Some Scenario.alice) "toString" "overview" =
   Throw (TypeError "user.sub_menu_access[menuId]?.includes is not a function")).
Proof.
  split; [|split; [|split]].
  - intros u Hactive.
    unfold hasMenuAccess, hasSubMenuAccess, hasComponentAccess, get.
    rewrite Hactive. cbn [negb]. repeat split.
    + apply includes_In.
    + apply includes_In.
    + apply includes_In.
    + apply includes_In.
    + intros menuId subMenuId l Hown. rewrite Hown.
      exists (includes subMenuId l). rewrite orb_false_r.
      split; [reflexivity | apply includes_In].
    + intros menuId subMenuId Hown Hplain. rewrite Hown.
      destruct (includes menuId Object_prototype_keys) eqn:Hinc;
        [|reflexivity].
      apply includes_In in Hinc. contradiction.
    + intros menuId subMenuId Hown Hinherited. rewrite Hown.
      apply includes_In in Hinherited. now rewrite Hinherited.
  - intros u v Hu Hv (Hm & Hs & Hc).
    unfold hasMenuAccess, hasSubMenuAccess, hasComponentAccess.
    rewrite Hu, Hv, Hm, Hs, Hc. repeat split.
  - exists (bare_user true (Some "viewer")), "dashboard", "access", "dashboard".
    split; reflexivity.
  - repeat split.
Qed.

Lemma grant_checks_membership_except_inherited_ids_witness :
  hasMenuAccess (Some Scenario.alice) "dashboard" = true /\
  (exists b, hasSubMenuAccess (Some Scenario.alice) "dashboard" "overview" = Normal b /\
             (b = true <-> In "overview" ["overview"])) /\
  hasSubMenuAccess (Some Scenario.alice) "reports" "overview" = Normal false /\
  hasSubMenuAccess (Some Scenario.alice) "valueOf" "overview" =
  Throw (TypeError "user.sub_menu_access[menuId]?.includes is not a function").
Proof.
  destruct grant_checks_membership_except_inherited_ids as [Hactive _].
  destruct (Hactive Scenario.alice eq_refl)
    as (Hmenu & _ & Hown & Hplain & Hinherited).
  split; [|split; [|split]].
  - apply Hmenu. left. reflexivity.
  - apply (Hown "dashboard" "overview" ["overview"]). reflexivity.
  - apply (Hplain "reports" "overview").
    + reflexivity.
    + intros Hin. vm_compute in Hin. intuition discriminate.
  - apply (Hinherited "valueOf" "overview").
    + reflexivity.
    + vm_compute. tauto.
Defined.

(** An active principal asked about a menu id that has no entry of its own
    and is not a name inherited from [Object.prototype] gets [false]. *)
Lemma hasSubMenuAccess_missing_plain_key (u : User) (menuId subMenuId : string) :
  is_active u = true ->
  sub_menu_access u !! menuId = None ->
  includes menuId Object_prototype_keys = false ->
  hasSubMenuAccess (Some u) menuId subMenuId = Normal false.
Proof.
  intros Hactive Hmissing Hplain. unfold hasSubMenuAccess, get.
  now rewrite Hactive, Hmissing, Hplain.
Qed.

(** An active principal asked about a menu id that has no entry of its own
    but names a property every object inherits: the call throws. *)
Lemma hasSubMenuAccess_missing_inherited_key (u : User) (menuId subMenuId : string) :
  is_active u = true ->
  sub_menu_access u !! menuId = None ->
  includes menuId Object_prototype_keys = true ->
  exists e, hasSubMenuAccess (Some u) menuId subMenuId = Throw e.
Proof.
  intros Hactive Hmissing Hinh. unfold hasSubMenuAccess, get.
  rewrite Hactive, Hmissing, Hinh. eexists. reflexivity.
Qed.

(** C10, evaluated where it fails. The active principal below has an empty
    [sub_menu_access] map, so "constructor" has no entry in it; the lookup
    nevertheless finds [Object.prototype.constructor], which has no
    [includes] method, and the check ends in a [TypeError] instead of
    [false]. *)
Theorem hasSubMenuAccess_constructor_throws :
  is_active (bare_user true (Some "member")) = true /\
  sub_menu_access (bare_user true (Some "member")) !! "constructor" = None /\
  hasSubMenuAccess (Some (bare_user true (Some "member"))) "constructor" "list" =
  Throw (TypeError "user.sub_menu_access[menuId]?.includes is not a function").
Proof. repeat split. Qed.

(** * Properties of the credential lifecycle *)

(** C3, as stated, fails. In the first run below the credential is set and
    only the clearing of the flag fails; what the caller gets is the
    store's own error, unchanged. The second run fails before anything is
    changed, with an error carrying the same fields: the two outcomes and
    the two recorded error messages are the same. *)
Lemma flag_failure_surfaces_as_store_error :
  let flag_fails := Reference.with_fault "users.update" Scenario.store_error Scenario.base in
  let credential_fails := Reference.with_fault "auth.updateUser" Scenario.store_error Scenario.base in
  let run1 := changePassword Reference.client Scenario.new_password true None (idle flag_fails) in
  let run2 := changePassword Reference.client Scenario.new_password true None (idle credential_fails) in
  credential (st_backend (snd run1)) "u1" = Some Scenario.new_password /\
  reset_flag (st_backend (snd run1)) "u1" = Some true /\
  fst run1 = Throw Scenario.store_error /\
  credential (st_backend (snd run2)) "u1" = Some Scenario.old_password /\
  fst run2 = fst run1 /\
  st_error (snd run2) = st_error (snd run1).
Proof. vm_compute. repeat split. Qed.

(** C3, amended. When setting the credential succeeds and the clearing of
    the flag then fails, [changePassword] throws the store's update error
    itself, records its message as the provider's error and leaves
    [loading] false: it does not report success, and the backend is left
    as the failed update left it. *)
Theorem changePassword_rethrows_flag_failure {B : Type} (sb : Supabase B)
  (newPassword : string) (accessToken : option string)
  (st st1 : AuthState B) (result : PasswordResult) (uid : string)
  (updateError : JsError) (b2 : B) :
  setCredential sb newPassword true accessToken
    (mkAuthState (st_user st) true None (st_backend st)) = (Normal result, st1) ->
  result_user_id result = Some uid ->
  users_update_needs_password_reset sb uid false (st_backend st1) =
    (Some updateError, b2) ->
  changePassword sb newPassword true accessToken st =
    (Throw updateError,
     mkAuthState (st_user st1) false
       (Some (or_else (err_message updateError) "Unexpected error")) b2).
Proof.
  intros Hset Huid Hupdate.
  unfold changePassword, finally, try_catch, bind, setLoading, setError, modify.
  cbn. rewrite Hset. unfold clearFlag. rewrite Huid.
  unfold bind, remote, call, throw. rewrite Hupdate. reflexivity.
Qed.

Lemma changePassword_rethrows_flag_failure_witness :
  fst (changePassword Reference.client Scenario.new_password true None
         (idle (Reference.with_fault "users.update" Scenario.store_error
                                     Scenario.base))) =
  Throw Scenario.store_error.
Proof.
  erewrite (changePassword_rethrows_flag_failure Reference.client
              Scenario.new_password None _ _ _ "u1" Scenario.store_error).
  - reflexivity.
  - vm_compute. reflexivity.
  - vm_compute. reflexivity.
  - vm_compute. reflexivity.
Defined.


(** Once the three checks of the page pass, [handleSubmit] is one call of
    [changePassword] without a token, followed by the success or the
    failure display. *)
Lemma handleSubmit_accepted {B : Type} (sb : Supabase B)
  (p : PageState) (st : AuthState B) :
  String.eqb (password p) (confirmPassword p) = true ->
  validation_ok (passwordValidation p) = true ->
  token_given (accessToken p) = true ->
  handleSubmit sb (p, st) =
  match changePassword sb (password p) true None st with
  | (Normal _, st') =>
      (Normal tt,
       (mkPage "" "" (showPassword p) (Some msg_success) true false
               (accessToken p) (passwordValidation p) (Some "/login"), st'))
  | (Throw e, st') =>
      (Normal tt,
       (mkPage (password p) (confirmPassword p) (showPassword p)
               (Some (failure_message e)) false false (accessToken p)
               (passwordValidation p) (redirect p), st'))
  end.
Proof.
  intros Hsame Hvalid Htoken.
  unfold handleSubmit, finally, try_catch, bind, modify_fst, gets, on_snd.
  cbn -[changePassword]. rewrite Hsame, Hvalid, Htoken.
  cbn -[changePassword].
  destruct (changePassword sb (password p) true None st) as [[r|e] st'];
    reflexivity.
Qed.

(** The token kept by the page is only tested for presence: two pages that
    differ in nothing but the value of a present token leave the same
    provider state behind and end the same way. *)
Lemma handleSubmit_token_value_unused {B : Type} (sb : Supabase B)
  (pw confirm : string) (v : option PasswordValidationResult)
  (t1 t2 : string) (st : AuthState B) :
  truthy t1 = true -> truthy t2 = true ->
  let page t := mkPage pw confirm false None false false (Some t) v None in
  fst (handleSubmit sb (page t1, st)) = fst (handleSubmit sb (page t2, st)) /\
  snd (snd (handleSubmit sb (page t1, st))) =
  snd (snd (handleSubmit sb (page t2, st))).
Proof.
  intros H1 H2 page.
  destruct (String.eqb pw confirm) eqn:Hsame;
    [destruct (validation_ok v) eqn:Hvalid|].
  - rewrite !handleSubmit_accepted by assumption.
    subst page. cbn -[changePassword].
    destruct (changePassword sb pw true None st) as [[r|e] st'];
      split; reflexivity.
  - unfold handleSubmit, bind, modify_fst, gets. cbn.
    rewrite Hsame, Hvalid. split; reflexivity.
  - unfold handleSubmit, bind, modify_fst, gets. cbn.
    rewrite Hsame. split; reflexivity.
Qed.




(** * Properties of the admin-users function *)

(** A CORS preflight is answered before the guard: no call is made. *)
Lemma preflight_answered_first {B : Type} (svc : Service B)
  (env : option string) (req : Request) (w : Traced B) :
  req_method req = "OPTIONS" ->
  handler svc env req w = (Normal (json 200 NoBody), w).
Proof. intros Hm. unfold handler. rewrite Hm. reflexivity. Qed.

(** C5. A request to one of the guarded endpoints (any method but the CORS
    preflight, which never reaches the guard) that carries an
    Authorization header whose token the identity provider accepts, and
    for whose principal the role lookup fails (the query reports an error,
    no row comes back, or the row has no role), is answered 403: not 500,
    and after the two calls of the guard no further call is made. *)
Theorem guard_forbids_on_failed_role_lookup {B : Type} (svc : Service B)
  (env : option string) (req : Request) (b b1 b2 : B) (tr : list Event)
  (authHeader : string) (principal : AuthUser) (r : PgResponse RoleRow) :
  req_method req <> "OPTIONS" ->
  present (req_authorization req) = Some authHeader ->
  svc_getUser svc (replace_first "Bearer " "" authHeader) b =
    (mkAuthResponse (Some principal) None, b1) ->
  svc_select_role svc (au_id principal) b1 = (r, b2) ->
  (pg_error r <> None \/ pg_data r = None \/
   exists row, pg_data r = Some row /\ rr_roles row = None) ->
  handler svc env req (mkTraced b tr) =
    (Normal (json 403 (ErrorBody "Insufficient permissions")),
     mkTraced b2 (tr ++ [EvGetUser (replace_first "Bearer " "" authHeader);
                         EvSelectRole (au_id principal)])).
Proof.
  intros Hmethod Hheader Hauth Hrole Hfails.
  unfold handler. apply String.eqb_neq in Hmethod. rewrite Hmethod.
  unfold try_catch, bind, invoke. rewrite Hheader. cbn.
  rewrite Hauth. cbn. rewrite Hrole.
  assert (Hdeny : not_admin r = true).
  { unfold not_admin. destruct Hfails as [He | [Hd | (row & Hd & Hr)]].
    - destruct (pg_error r); [reflexivity | congruence].
    - rewrite Hd. destruct (pg_error r); reflexivity.
    - rewrite Hd, Hr. destruct (pg_error r); reflexivity. }
  rewrite Hdeny. cbn. rewrite <- app_assoc. reflexivity.
Qed.

Lemma guard_forbids_on_failed_role_lookup_witness :
  handler Reference.service None
    (mkRequest "DELETE" "/functions/v1/admin-users/u1"
               (Some "Bearer ghost-token") None)
    (mkTraced Scenario.base []) =
  (Normal (json 403 (ErrorBody "Insufficient permissions")),
   mkTraced Scenario.base [EvGetUser "ghost-token"; EvSelectRole "u9"]).
Proof.
  apply (guard_forbids_on_failed_role_lookup Reference.service None
           (mkRequest "DELETE" "/functions/v1/admin-users/u1"
                      (Some "Bearer ghost-token") None)
           Scenario.base Scenario.base Scenario.base [] "Bearer ghost-token"
           (mkAuthUser "u9" "ghost@example.org")
           (mkPgResponse None (Some Reference.no_rows))).
  - discriminate.
  - reflexivity.
  - vm_compute. reflexivity.
  - vm_compute. reflexivity.
  - left. discriminate.
Defined.

(** C7, as stated, fails. The insert of the directory row fails and so
    does the deprovisioning call: the function still answers 400 with the
    insert error, and the identity just created stays behind without a
    directory row. *)
Lemma failed_rollback_leaves_orphan :
  let b := Reference.with_fault "auth.admin.deleteUser"
             (mkError "AuthRetryableFetchError" "fetch failed")
             (Reference.with_fault "users.insert" Scenario.store_error
                Scenario.base) in
  let out := handler Reference.service None Scenario.create_request
               (mkTraced b []) in
  orphaned b "id-bob@example.org" = false /\
  fst out = Normal (json 400 (ErrorBody (err_message Scenario.store_error))) /\
  trace (snd out) =
    [EvGetUser "root-token"; EvSelectRole "u0";
     EvCreateUser "bob@example.org" "T3mp#Passw0rd";
     EvInsertUser Scenario.bob_row; EvDeleteUser "id-bob@example.org"] /\
  orphaned (backend (snd out)) "id-bob@example.org" = true.
Proof. vm_compute. repeat split. Qed.

(** On the reference backend, a deprovisioning call that succeeds leaves no
    identity behind. *)
Lemma successful_rollback_leaves_no_orphan :
  let b := Reference.with_fault "users.insert" Scenario.store_error Scenario.base in
  let out := handler Reference.service None Scenario.create_request
               (mkTraced b []) in
  fst out = Normal (json 400 (ErrorBody (err_message Scenario.store_error))) /\
  identities (backend (snd out)) !! "id-bob@example.org" = None /\
  orphaned (backend (snd out)) "id-bob@example.org" = false.
Proof. vm_compute. repeat split. Qed.

(** On the reference backend, a deprovisioning call that rejects is
    answered 500: the insert error is lost and the identity stays behind. *)
Lemma rejected_rollback_answers_500 :
  let b := Reference.with_fault "auth.admin.deleteUser.rejects"
             (mkError "TypeError" "fetch failed")
             (Reference.with_fault "users.insert" Scenario.store_error
                Scenario.base) in
  let out := handler Reference.service None Scenario.create_request
               (mkTraced b []) in
  fst out = Normal (json 500 (ErrorBody "Internal server error")) /\
  orphaned (backend (snd out)) "id-bob@example.org" = true.
Proof. vm_compute. repeat split. Qed.

(** C7, amended. In the create-user operation, when provisioning the
    identity succeeds and inserting the directory row fails, the function
    calls the provider's [deleteUser] on the identity just created, after
    the failed insert and as its last call. When that call resolves, the
    function answers 400 with the message of the insert error whatever the
    answer of the call, which is not looked at; when that call rejects,
    the function answers 500. The backend is left as that call left it. *)
Theorem create_user_compensates {B : Type} (svc : Service B)
  (env : option string) (req : Request) (body : Body)
  (b b1 b2 b3 b4 b5 : B) (tr : list Event) (authHeader : string)
  (caller created : AuthUser) (r : PgResponse RoleRow)
  (inserted : PgResponse User) (profileError : JsError)
  (deleted : completion (option JsError)) :
  let token := replace_first "Bearer " "" authHeader in
  let row := mkInsertRow (au_id created) (b_email body) (b_full_name body)
               (b_role_id body) (or_nil (b_menu_access body))
               (or_empty_object (b_sub_menu_access body))
               (or_nil (b_component_access body)) true in
  req_method req = "POST" ->
  endsWith "/admin-users" (req_pathname req) = true ->
  req_body req = Some body ->
  present (req_authorization req) = Some authHeader ->
  svc_getUser svc token b = (mkAuthResponse (Some caller) None, b1) ->
  svc_select_role svc (au_id caller) b1 = (r, b2) ->
  not_admin r = false ->
  svc_createUser svc (b_email body) (b_password body) b2 =
    (mkAuthResponse (Some created) None, b3) ->
  svc_insert_user svc row b3 = (inserted, b4) ->
  pg_error inserted = Some profileError ->
  svc_deleteUser svc (au_id created) b4 = (deleted, b5) ->
  handler svc env req (mkTraced b tr) =
    (Normal (match deleted with
             | Normal _ => json 400 (ErrorBody (err_message profileError))
             | Throw _ => json 500 (ErrorBody "Internal server error")
             end),
     mkTraced b5 (tr ++ [EvGetUser token; EvSelectRole (au_id caller);
                         EvCreateUser (b_email body) (b_password body);
                         EvInsertUser row;
                         EvDeleteUser (au_id created)])).
Proof.
  intros token row Hpost Hpath Hbody Hheader Hauth Hrole Hadmin Hcreate
    Hinsert Herror Hdelete.
  unfold handler. rewrite Hpost.
  change (String.eqb "POST" "OPTIONS") with false. cbv iota.
  rewrite Hheader. fold token.
  unfold try_catch, bind, invoke. cbn -[dispatch]. rewrite Hauth.
  cbn -[dispatch]. rewrite Hrole, Hadmin. cbn -[dispatch].
  unfold dispatch. rewrite Hpost, Hpath. cbn.
  unfold createUser, parseBody, bind, invoke, invoke_rejecting, ret.
  rewrite Hbody. cbn. rewrite Hcreate. cbn. fold row. rewrite Hinsert. cbn.
  rewrite Herror. cbn. rewrite Hdelete. rewrite <- !app_assoc.
  destruct deleted; reflexivity.
Qed.

Lemma create_user_compensates_witness :
  let b := Reference.with_fault "users.insert" Scenario.store_error Scenario.base in
  handler Reference.service None Scenario.create_request (mkTraced b []) =
  (Normal (json 400 (ErrorBody (err_message Scenario.store_error))),
   mkTraced b [EvGetUser "root-token"; EvSelectRole "u0";
               EvCreateUser "bob@example.org" "T3mp#Passw0rd";
               EvInsertUser Scenario.bob_row; EvDeleteUser "id-bob@example.org"]).
Proof.
  intros b.
  apply (create_user_compensates Reference.service None
           Scenario.create_request Scenario.bob_body b b b
           (Reference.with_identities
              (insert "id-bob@example.org"
                      ("bob@example.org", "T3mp#Passw0rd")) b)
           (Reference.with_identities
              (insert "id-bob@example.org"
                      ("bob@example.org", "T3mp#Passw0rd")) b)
           b [] "Bearer root-token"
           (mkAuthUser "u0" "root@example.org")
           (mkAuthUser "id-bob@example.org" "bob@example.org")
           (mkPgResponse (Some (mkRoleRow (Some "r-admin") (Some "admin"))) None)
           (mkPgResponse None (Some Scenario.store_error))
           Scenario.store_error (Normal None)).
  - reflexivity.
  - vm_compute. reflexivity.
  - reflexivity.
  - reflexivity.
  - vm_compute. reflexivity.
  - vm_compute. reflexivity.
  - reflexivity.
  - vm_compute. reflexivity.
  - vm_compute. reflexivity.
  - reflexivity.
  - vm_compute. reflexivity.
Defined.

(** * Further properties of the access decisions *)

Ltac split_on_strings :=
  repeat match goal with
         | |- context [String.eqb ?a ?b] =>
             destruct (String.eqb_spec a b); subst; cbn
         end.

Ltac prove_alternative :=
  solve [ reflexivity
        | split; prove_alternative
        | left; prove_alternative
        | right; prove_alternative ].

Ltac settle_policy :=
  split; intros;
    first [ reflexivity
          | discriminate
          | prove_alternative
          | exfalso; intuition (first [congruence | discriminate]) ].

(** X1. What an active member and an active viewer may do, in full: a
    viewer gets the dashboard and the viewing of reports, a member gets in
    addition the export of reports and the creation of transactions, and
    neither gets anything else. *)
Theorem member_and_viewer_policy (u : User) (resource action : string) :
  is_active u = true ->
  (roleName u = Some "viewer" ->
   (hasPermission (Some u) resource action = true <->
    resource = "dashboard" \/ (resource = "reports" /\ action = "view"))) /\
  (roleName u = Some "member" ->
   (hasPermission (Some u) resource action = true <->
    resource = "dashboard" \/
    (resource = "reports" /\ (action = "view" \/ action = "export")) \/
    (resource = "transactions" /\ action = "create"))).
Proof.
  intros Hactive.
  split; intros Hrole; unfold hasPermission; rewrite Hactive, Hrole; cbn;
    split_on_strings; settle_policy.
Qed.

Lemma member_and_viewer_policy_witness :
  hasPermission (Some (bare_user true (Some "viewer"))) "reports" "view" = true /\
  hasPermission (Some (bare_user true (Some "member"))) "transactions" "create" = true.
Proof.
  split.
  - apply (proj1 (member_and_viewer_policy (bare_user true (Some "viewer"))
                    "reports" "view" eq_refl) eq_refl).
    right. split; reflexivity.
  - apply (proj2 (member_and_viewer_policy (bare_user true (Some "member"))
                    "transactions" "create" eq_refl) eq_refl).
    right. right. split; reflexivity.
Defined.

(** X2. A principal whose role is none of "admin", "member" and "viewer"
    (or that has no role at all) is denied every resource and action. *)
Theorem unknown_role_denied (u : User) (resource action : string) :
  roleName u <> Some "admin" ->
  roleName u <> Some "member" ->
  roleName u <> Some "viewer" ->
  hasPermission (Some u) resource action = false.
Proof.
  intros Hadmin Hmember Hviewer. unfold hasPermission.
  destruct (is_active u); [|reflexivity]. cbn [negb].
  assert (Hnone : forall lit, In lit ["admin"; "member"; "viewer"] ->
                              role_is (roleName u) lit = false /\
                              String.eqb (role_or_empty (roleName u)) lit = false).
  { intros lit Hin. destruct (roleName u) as [n|] eqn:Hn; cbn.
    - assert (Hne : n <> lit).
      { intros ->. cbn in Hin. intuition congruence. }
      split; [now apply String.eqb_neq|].
      unfold or_else, truthy. destruct (String.eqb_spec n ""); cbn.
      + cbn in Hin. intuition (subst; reflexivity).
      + now apply String.eqb_neq.
    - split; [reflexivity|]. cbn in Hin. intuition (subst; reflexivity). }
  destruct (Hnone "admin") as [Ha Ha']; [cbn; auto|].
  destruct (Hnone "member") as [_ Hm']; [cbn; auto|].
  destruct (Hnone "viewer") as [_ Hv']; [cbn; auto|].
  rewrite Ha. unfold includes. cbn. rewrite Ha', Hm', Hv'. cbn.
  repeat match goal with
         | |- context [String.eqb ?a ?b] => destruct (String.eqb a b)
         end; reflexivity.
Qed.

Lemma unknown_role_denied_witness :
  hasPermission (Some (bare_user true (Some "Admin"))) "dashboard" "access" = false /\
  hasPermission (Some (bare_user true None)) "dashboard" "access" = false.
Proof.
  split.
  - apply (unknown_role_denied (bare_user true (Some "Admin"))); discriminate.
  - apply (unknown_role_denied (bare_user true None)); discriminate.
Defined.

(** X3. The "admin" and "users" resources and the approval of transactions
    are for admins only: a principal that is allowed one of them is active
    and has the role "admin". *)
Theorem admin_only_resources (u : User) (resource action : string) :
  resource = "admin" \/ resource = "users" \/
  (resource = "transactions" /\ action = "approve") ->
  hasPermission (Some u) resource action = true ->
  is_active u = true /\ roleName u = Some "admin".
Proof.
  intros Hres. unfold hasPermission.
  destruct (is_active u); [|discriminate]. cbn [negb].
  destruct (roleName u) as [n|]; cbn.
  - destruct (String.eqb_spec n "admin") as [->|Hn]; [intros _; now split|].
    destruct Hres as [-> | [-> | [-> ->]]]; cbn; discriminate.
  - destruct Hres as [-> | [-> | [-> ->]]]; cbn; discriminate.
Qed.

Lemma admin_only_resources_witness :
  is_active Scenario.root = true /\ roleName Scenario.root = Some "admin".
Proof.
  apply (admin_only_resources Scenario.root "transactions" "approve").
  - right. right. split; reflexivity.
  - reflexivity.
Defined.

(** X4. [isAdmin] looks at the role alone: it holds exactly for a principal
    whose role is "admin", active or not, whereas [canAccessAdminPanel]
    also asks for the principal to be active. *)
Theorem isAdmin_ignores_activity (user : option User) :
  (isAdmin user = true <-> exists u, user = Some u /\ roleName u = Some "admin") /\
  (canAccessAdminPanel user = true <->
   exists u, user = Some u /\ is_active u = true /\ roleName u = Some "admin").
Proof.
  unfold isAdmin, canAccessAdminPanel, hasPermission.
  destruct user as [u|].
  - split.
    + rewrite orb_false_r. split.
      * intros H. exists u. split; [reflexivity|].
        destruct (roleName u) as [n|]; [|discriminate]. cbn in H.
        apply String.eqb_eq in H. now subst.
      * intros (v & Hv & Hrole). injection Hv as <-. now rewrite Hrole.
    + destruct (is_active u) eqn:Hactive; cbn [negb].
      * split.
        -- intros H. exists u. split; [reflexivity|]. split; [exact Hactive|].
           destruct (roleName u) as [n|]; [|discriminate]. cbn in H.
           destruct (String.eqb_spec n "admin"); [now subst | discriminate].
        -- intros (v & Hv & _ & Hrole). injection Hv as <-. now rewrite Hrole.
      * split; [discriminate|].
        intros (v & Hv & Hact & _). injection Hv as <-. congruence.
  - split; (split; [discriminate | intros (v & Hv & _); discriminate Hv]).
Qed.

(** X5. The sub-menu check throws exactly when the principal is active,
    the menu id has no entry of its own in [sub_menu_access] and it names a
    property inherited from [Object.prototype]; in every other case it
    returns a boolean. *)
Theorem hasSubMenuAccess_throws_iff (user : option User) (menuId subMenuId : string) :
  (exists e, hasSubMenuAccess user menuId subMenuId = Throw e) <->
  (exists u, user = Some u /\ is_active u = true /\
             sub_menu_access u !! menuId = None /\
             In menuId Object_prototype_keys).
Proof.
  unfold hasSubMenuAccess, get. split.
  - intros [e He]. destruct user as [u|]; [|discriminate].
    exists u. destruct (is_active u); [|discriminate]. cbn [negb] in He.
    destruct (sub_menu_access u !! menuId); [discriminate|].
    destruct (includes menuId Object_prototype_keys) eqn:Hinc; [|discriminate].
    repeat split. now apply includes_In.
  - intros (u & -> & Hactive & Hown & Hin).
    apply includes_In in Hin. rewrite Hactive, Hown, Hin. cbn.
    eexists. reflexivity.
Qed.

(** * Further properties of the provider operations *)

(** Calls to the backend leave the [loading] and [error] fields alone. *)
Lemma remote_keeps_flags {B A : Type} (m : M B A) (st st' : AuthState B)
  (c : completion A) :
  remote m st = (c, st') ->
  st_user st' = st_user st /\ st_loading st' = st_loading st /\
  st_error st' = st_error st.
Proof.
  unfold remote. destruct (m (st_backend st)) as [c0 b'].
  intros H. injection H as _ <-. repeat split.
Qed.

Lemma refreshUser_keeps_flags {B : Type} (sb : Supabase B) (st : AuthState B) :
  exists st', refreshUser sb st = (Normal tt, st') /\
              st_loading st' = st_loading st /\ st_error st' = st_error st.
Proof.
  unfold refreshUser, fetchUserProfile, bind, remote, call, setUser, modify, ret.
  destruct (auth_getUser sb (st_backend st)) as [[su|] b1]; cbn.
  - destruct (users_select_profile sb (au_id su) b1) as [r b2]; cbn.
    destruct (pg_error r); cbn; eexists; repeat split.
  - eexists; repeat split.
Qed.

Lemma setCredential_keeps_flags {B : Type} (sb : Supabase B)
  (pw : string) (clear : bool) (tok : option string) (st st' : AuthState B)
  (c : completion PasswordResult) :
  setCredential sb pw clear tok st = (c, st') ->
  st_loading st' = st_loading st /\ st_error st' = st_error st.
Proof.
  unfold setCredential. destruct (token_given tok).
  - unfold bind, remote, Api.updatePassword, getAuthHeaders, handleResponse,
      bind, call, ret, throw.
    destruct (auth_getSession sb (st_backend st)) as [s b1]; cbn.
    destruct (session_token s); cbn.
    + destruct (fetch_update_password sb s0 pw clear b1) as [resp b2]; cbn.
      destruct (http_ok resp); cbn; intros H; injection H as _ <-; split; reflexivity.
    + intros H; injection H as _ <-; split; reflexivity.
  - unfold bind, remote, call, throw, ret.
    destruct (auth_updateUser sb pw (st_backend st)) as [r b1]; cbn.
    destruct (auth_error r); cbn.
    + intros H; injection H as _ <-; split; reflexivity.
    + match goal with
      | |- context [refreshUser sb ?s] =>
          destruct (refreshUser_keeps_flags sb s) as (st2 & Hr & Hl & He);
          rewrite Hr
      end.
      intros H; injection H as _ <-. cbn in Hl, He. split; assumption.
Qed.

Lemma clearFlag_keeps_flags {B : Type} (sb : Supabase B) (clear : bool)
  (result : PasswordResult) (st st' : AuthState B) (c : completion unit) :
  clearFlag sb clear result st = (c, st') ->
  st_user st' = st_user st /\ st_loading st' = st_loading st /\
  st_error st' = st_error st.
Proof.
  unfold clearFlag.
  destruct (if clear then result_user_id result else None) as [uid|].
  - unfold bind, remote, call, throw, ret.
    destruct (users_update_needs_password_reset sb uid false (st_backend st))
      as [[e|] b1]; cbn; intros H; injection H as _ <-; repeat split.
  - intros H; injection H as _ <-; repeat split.
Qed.

(** X6. However [changePassword] ends, [loading] is false afterwards and
    the [error] field tells how it ended: empty after a normal return, the
    message of the thrown error (or "Unexpected error" when that is empty)
    after a throw. *)
Theorem changePassword_leaves_outcome_in_state {B : Type} (sb : Supabase B)
  (pw : string) (clear : bool) (tok : option string) (st : AuthState B) :
  st_loading (snd (changePassword sb pw clear tok st)) = false /\
  match fst (changePassword sb pw clear tok st) with
  | Normal _ => st_error (snd (changePassword sb pw clear tok st)) = None
  | Throw e =>
      st_error (snd (changePassword sb pw clear tok st)) =
      Some (or_else (err_message e) "Unexpected error")
  end.
Proof.
  unfold changePassword, finally, try_catch, bind, setLoading, setError,
    modify, throw, ret. cbn -[setCredential clearFlag].
  destruct (setCredential sb pw clear tok _) as [[result|e] st1] eqn:Hset;
    apply setCredential_keeps_flags in Hset; cbn in Hset;
    destruct Hset as [Hl He]; cbn -[clearFlag].
  - destruct (clearFlag sb clear result st1) as [[[]|e] st2] eqn:Hclear;
      apply clearFlag_keeps_flags in Hclear; destruct Hclear as (_ & Hl' & He');
      cbn; split; congruence.
  - split; reflexivity.
Qed.

(** X7. [changePassword] reports success without touching the flag when
    it is not asked to clear it, and also when it is asked to but the
    answer of the credential update carries no user id: the backend is left
    as the credential update left it. *)
Theorem changePassword_skips_flag {B : Type} (sb : Supabase B)
  (pw : string) (clear : bool) (tok : option string) (st st1 : AuthState B)
  (result : PasswordResult) :
  setCredential sb pw clear tok
    (mkAuthState (st_user st) true None (st_backend st)) = (Normal result, st1) ->
  clear = false \/ result_user_id result = None ->
  changePassword sb pw clear tok st =
    (Normal result, mkAuthState (st_user st1) false None (st_backend st1)).
Proof.
  intros Hset Hskip.
  pose proof (setCredential_keeps_flags sb _ _ _ _ _ _ Hset) as [_ He].
  cbn in He.
  unfold changePassword, finally, try_catch, bind, setLoading, setError,
    modify, throw, ret. cbn -[setCredential clearFlag]. rewrite Hset.
  assert (Hnone : (if clear then result_user_id result else None) = None).
  { destruct Hskip as [-> | ->]; [reflexivity | now destruct clear]. }
  unfold clearFlag. rewrite Hnone. cbn. now rewrite He.
Qed.

Lemma changePassword_skips_flag_witness :
  let b := Reference.with_fault "users.select" Scenario.store_error Scenario.base in
  fst (changePassword Reference.client Scenario.new_password false None (idle b)) =
    Normal (mkPasswordResult None (Some (mkAuthUser "u1" "alice@example.org"))) /\
  reset_flag (st_backend (snd (changePassword Reference.client
                                 Scenario.new_password false None (idle b)))) "u1" =
    Some true.
Proof.
  intros b.
  erewrite (changePassword_skips_flag Reference.client Scenario.new_password
              false None (idle b))
    by (first [left; reflexivity | vm_compute; reflexivity]).
  split; [reflexivity | vm_compute; reflexivity].
Defined.

(** X8. When the credential update and the clearing of the flag both
    succeed, [changePassword] returns the answer of the credential update
    and leaves the backend as the flag update left it, with [loading] false
    and no error recorded. *)
Theorem changePassword_success {B : Type} (sb : Supabase B)
  (pw : string) (tok : option string) (st st1 : AuthState B)
  (result : PasswordResult) (uid : string) (b2 : B) :
  setCredential sb pw true tok
    (mkAuthState (st_user st) true None (st_backend st)) = (Normal result, st1) ->
  result_user_id result = Some uid ->
  users_update_needs_password_reset sb uid false (st_backend st1) = (None, b2) ->
  changePassword sb pw true tok st =
    (Normal result, mkAuthState (st_user st1) false None b2).
Proof.
  intros Hset Huid Hupdate.
  pose proof (setCredential_keeps_flags sb _ _ _ _ _ _ Hset) as [_ He].
  cbn in He.
  unfold changePassword, finally, try_catch, bind, setLoading, setError,
    modify, throw, ret. cbn -[setCredential clearFlag]. rewrite Hset.
  unfold clearFlag. rewrite Huid. unfold bind, remote, call.
  rewrite Hupdate. cbn. now rewrite He.
Qed.

Lemma changePassword_success_witness :
  let out := changePassword Reference.client Scenario.new_password true None
               (idle Scenario.base) in
  credential (st_backend (snd out)) "u1" = Some Scenario.new_password /\
  reset_flag (st_backend (snd out)) "u1" = Some false.
Proof.
  intros out. unfold out.
  erewrite (changePassword_success Reference.client Scenario.new_password None
              (idle Scenario.base) _ _ "u1")
    by (vm_compute; reflexivity).
  split; vm_compute; reflexivity.
Defined.

(** X9. The token flow of [changePassword] depends on the browser session:
    when a token is passed but the browser holds no session (or one with
    an empty access token), the operation throws "No active session"
    without sending the new password anywhere, and records that message. *)
Theorem changePassword_token_flow_needs_session {B : Type} (sb : Supabase B)
  (pw token : string) (clear : bool) (st : AuthState B)
  (s : option Session) (b1 : B) :
  truthy token = true ->
  auth_getSession sb (st_backend st) = (s, b1) ->
  session_token s = None ->
  changePassword sb pw clear (Some token) st =
    (Throw (mkError "Error" "No active session"),
     mkAuthState (st_user st) false (Some "No active session") b1).
Proof.
  intros Htoken Hsession Hnone.
  unfold changePassword, finally, try_catch, bind, setLoading, setError,
    modify, setCredential, token_given. rewrite Htoken. cbn.
  unfold bind, remote, Api.updatePassword, getAuthHeaders, bind, call, throw.
  cbn. rewrite Hsession. cbn. rewrite Hnone. reflexivity.
Qed.

Lemma changePassword_token_flow_needs_session_witness :
  let b := ReferenceSession.signed_out in
  let out := changePassword Reference.client Scenario.new_password true
               (Some "recovery-token") (idle b) in
  fst out = Throw (mkError "Error" "No active session") /\
  st_backend (snd out) = b.
Proof.
  intros b out. unfold out.
  rewrite (changePassword_token_flow_needs_session Reference.client
             Scenario.new_password "recovery-token" true (idle b) None b).
  - split; reflexivity.
  - reflexivity.
  - vm_compute. reflexivity.
  - reflexivity.
Defined.



(** * Properties of signing in and out *)

Ltac run_session :=
  repeat progress
    unfold signIn, signOut, sendPasswordResetEmail, fetchUserProfile, finally,
      try_catch, bind, in_provider, setLoading, setError, setUser, setItem,
      removeItem, modify, remote, call, throw, ret.

(** X11. Signing in with credentials the provider accepts, for a principal
    whose profile is inactive or cannot be read, throws "Account is
    inactive": the user of the page and the stored profile stay as they
    were, the message is recorded, and the backend is left as the sign-in
    and the profile query left it (the session the provider opened is not
    closed). *)
Theorem signIn_refuses_inactive {B : Type} (sb : Supabase B) (ac : AuthCalls B)
  (em pw : string) (w : Browser B) (u : AuthUser) (b1 b2 : B)
  (r : PgResponse Profile) :
  auth_signInWithPassword ac em pw (st_backend (provider w)) =
    (mkAuthResponse (Some u) None, b1) ->
  users_select_profile sb (au_id u) b1 = (r, b2) ->
  (pg_error r <> None \/ pg_data r = None \/
   exists p, pg_data r = Some p /\ prof_is_active p = false) ->
  signIn sb ac em pw w =
    (Throw (mkError "Error" "Account is inactive"),
     mkBrowser (mkAuthState (st_user (provider w)) false
                            (Some "Account is inactive") b2)
               (userProfile w)).
Proof.
  intros Hsign Hprofile Hinactive. run_session. cbn.
  rewrite Hsign. cbn. rewrite Hprofile. cbn.
  destruct (pg_error r) as [e|] eqn:He; cbn; [reflexivity|].
  destruct Hinactive as [H | [H | (p & Hp & Hact)]].
  - congruence.
  - rewrite H. reflexivity.
  - rewrite Hp. cbn. rewrite Hact. reflexivity.
Qed.

Lemma signIn_refuses_inactive_witness :
  let out := signIn Reference.client ReferenceSession.calls "carol@example.org"
               "Car0l#Passw0rd" (ReferenceSession.fresh ReferenceSession.signed_out) in
  fst out = Throw (mkError "Error" "Account is inactive") /\
  st_user (provider (snd out)) = None /\
  session (st_backend (provider (snd out))) = Some "u2".
Proof.
  intros out. unfold out.
  erewrite (signIn_refuses_inactive Reference.client ReferenceSession.calls
              "carol@example.org" "Car0l#Passw0rd"
              (ReferenceSession.fresh ReferenceSession.signed_out)
              (mkAuthUser "u2" "carol@example.org") _ _
              (mkPgResponse (Some (Reference.profile_of ReferenceSession.carol)) None))
    by (first [ vm_compute; reflexivity
              | right; right; eexists; split; reflexivity ]).
  repeat split.
Defined.

(** X12. Signing in with credentials the provider accepts, for a principal
    whose profile is read and active, returns normally with that profile as
    the user of the page and as the stored profile, no error and [loading]
    false. *)
Theorem signIn_active {B : Type} (sb : Supabase B) (ac : AuthCalls B)
  (em pw : string) (w : Browser B) (u : AuthUser) (b1 b2 : B) (p : Profile) :
  auth_signInWithPassword ac em pw (st_backend (provider w)) =
    (mkAuthResponse (Some u) None, b1) ->
  users_select_profile sb (au_id u) b1 = (mkPgResponse (Some p) None, b2) ->
  prof_is_active p = true ->
  signIn sb ac em pw w =
    (Normal tt,
     mkBrowser (mkAuthState (Some p) false None b2) (Some (Some p))).
Proof.
  intros Hsign Hprofile Hactive. run_session. cbn.
  rewrite Hsign. cbn. rewrite Hprofile. cbn. rewrite Hactive. reflexivity.
Qed.

Lemma signIn_active_witness :
  let out := signIn Reference.client ReferenceSession.calls "alice@example.org"
               Scenario.old_password (ReferenceSession.fresh ReferenceSession.signed_out) in
  fst out = Normal tt /\
  st_user (provider (snd out)) = Some (Reference.profile_of Scenario.alice) /\
  userProfile (snd out) = Some (Some (Reference.profile_of Scenario.alice)).
Proof.
  intros out. unfold out.
  erewrite (signIn_active Reference.client ReferenceSession.calls
              "alice@example.org" Scenario.old_password
              (ReferenceSession.fresh ReferenceSession.signed_out)
              (mkAuthUser "u1" "alice@example.org") _ _
              (Reference.profile_of Scenario.alice))
    by (vm_compute; reflexivity).
  repeat split.
Defined.

(** X13. However [signIn] ends, [loading] is false afterwards and the
    [error] field tells how it ended: empty after a normal return, the
    message of the thrown error after a throw. *)
Theorem signIn_leaves_outcome_in_state {B : Type} (sb : Supabase B)
  (ac : AuthCalls B) (em pw : string) (w : Browser B) :
  st_loading (provider (snd (signIn sb ac em pw w))) = false /\
  match fst (signIn sb ac em pw w) with
  | Normal _ => st_error (provider (snd (signIn sb ac em pw w))) = None
  | Throw e =>
      st_error (provider (snd (signIn sb ac em pw w))) = Some (err_message e)
  end.
Proof.
  run_session. cbn.
  destruct (auth_signInWithPassword ac em pw (st_backend (provider w)))
    as [[[u|] [e|]] b1]; cbn; try (split; reflexivity).
  destruct (users_select_profile sb (au_id u) b1) as [[[p|] [e|]] b2]; cbn;
    try (split; reflexivity).
  destruct (prof_is_active p); cbn; split; reflexivity.
Qed.

(** X14. [signOut] never throws. When the provider's call resolves, with
    or without an error in its answer, the user of the page and the stored
    profile are cleared and the [error] field is left as it was; when the
    call rejects, both are kept and the message is recorded. In both cases
    [loading] is false afterwards. *)
Theorem signOut_outcomes {B : Type} (ac : AuthCalls B) (w : Browser B) :
  fst (signOut ac w) = Normal tt /\
  (forall o b1,
      auth_signOut ac (st_backend (provider w)) = (Normal o, b1) ->
      snd (signOut ac w) =
        mkBrowser (mkAuthState None false (st_error (provider w)) b1) None) /\
  (forall e b1,
      auth_signOut ac (st_backend (provider w)) = (Throw e, b1) ->
      snd (signOut ac w) =
        mkBrowser (mkAuthState (st_user (provider w)) false
                               (Some (err_message e)) b1)
                  (userProfile w)).
Proof.
  run_session. cbn.
  destruct (auth_signOut ac (st_backend (provider w))) as [[o|e] b1]; cbn;
    repeat split; intros ? ? H; inversion H; reflexivity.
Qed.

Lemma signOut_outcomes_witness :
  let b := Reference.with_fault "auth.signOut"
             (mkError "AuthApiError" "session not found") Scenario.base in
  let w := mkBrowser (mkAuthState (Some (Reference.profile_of Scenario.alice))
                                  false None b)
                     (Some (Some (Reference.profile_of Scenario.alice))) in
  st_user (provider (snd (signOut ReferenceSession.calls w))) = None /\
  userProfile (snd (signOut ReferenceSession.calls w)) = None /\
  session (st_backend (provider (snd (signOut ReferenceSession.calls w)))) = Some "u1".
Proof.
  intros b w.
  destruct (signOut_outcomes ReferenceSession.calls w) as (_ & Hresolved & _).
  rewrite (Hresolved (Some (mkError "AuthApiError" "session not found")) b).
  - repeat split.
  - vm_compute. reflexivity.
Defined.

(** X15. [sendPasswordResetEmail] asks the provider once, with the origin
    of the page followed by "/reset-password" as the return address; it
    throws exactly when the provider's answer carries an error, and apart
    from [loading] and [error] it changes neither the user of the page nor
    the stored profile. *)
Theorem sendPasswordResetEmail_outcomes {B : Type} (ac : AuthCalls B)
  (origin em : string) (w : Browser B) (o : option JsError) (b1 : B) :
  auth_resetPasswordForEmail ac em (origin +:+ "/reset-password")
    (st_backend (provider w)) = (o, b1) ->
  sendPasswordResetEmail ac origin em w =
    (match o with Some e => Throw e | None => Normal tt end,
     mkBrowser (mkAuthState (st_user (provider w)) false (err_message <$> o) b1)
               (userProfile w)).
Proof.
  intros Hcall. run_session. cbn. rewrite Hcall.
  destruct o; reflexivity.
Qed.

Lemma sendPasswordResetEmail_outcomes_witness :
  let b := Reference.with_fault "auth.resetPasswordForEmail"
             (mkError "AuthApiError" "Email rate limit exceeded") Scenario.base in
  fst (sendPasswordResetEmail ReferenceSession.calls "https://app.example.org"
         "alice@example.org" (ReferenceSession.fresh b)) =
  Throw (mkError "AuthApiError" "Email rate limit exceeded").
Proof.
  intros b.
  rewrite (sendPasswordResetEmail_outcomes ReferenceSession.calls
             "https://app.example.org" "alice@example.org"
             (ReferenceSession.fresh b)
             (Some (mkError "AuthApiError" "Email rate limit exceeded")) b).
  - reflexivity.
  - vm_compute. reflexivity.
Defined.

(** * Further properties of the reset page *)

(** The page as [handleSubmit] leaves it when one of its three checks
    fails: only the message is new. *)
Lemma handleSubmit_turned_down {B : Type} (sb : Supabase B)
  (p : PageState) (st : AuthState B) :
  String.eqb (password p) (confirmPassword p) &&
  validation_ok (passwordValidation p) && token_given (accessToken p) = false ->
  handleSubmit sb (p, st) =
    (Normal tt,
     (mkPage (password p) (confirmPassword p) (showPassword p)
        (Some (if negb (String.eqb (password p) (confirmPassword p))
               then msg_mismatch
               else if negb (validation_ok (passwordValidation p))
                    then msg_weak else msg_no_token))
        false (isLoading p) (accessToken p) (passwordValidation p) (redirect p),
      st)).
Proof.
  intros Hfail. unfold handleSubmit, bind, modify_fst, gets.
  cbn -[changePassword].
  destruct (String.eqb (password p) (confirmPassword p)); cbn -[changePassword];
    [|reflexivity].
  destruct (validation_ok (passwordValidation p)); cbn -[changePassword];
    [|reflexivity].
  destruct (token_given (accessToken p)); cbn -[changePassword];
    [discriminate Hfail | reflexivity].
Qed.

(** X16. [handleSubmit] never throws: whatever [changePassword] does, the
    submission ends normally, and a submission that passed the three
    checks of the page ends with [isLoading] false. *)
Theorem handleSubmit_never_throws {B : Type} (sb : Supabase B)
  (p : PageState) (st : AuthState B) :
  fst (handleSubmit sb (p, st)) = Normal tt /\
  (String.eqb (password p) (confirmPassword p) &&
   validation_ok (passwordValidation p) && token_given (accessToken p) = true ->
   isLoading (fst (snd (handleSubmit sb (p, st)))) = false).
Proof.
  destruct (String.eqb (password p) (confirmPassword p) &&
            validation_ok (passwordValidation p) &&
            token_given (accessToken p)) eqn:Hchecks.
  - apply andb_true_iff in Hchecks as [Hchecks Htoken].
    apply andb_true_iff in Hchecks as [Hsame Hvalid].
    rewrite (handleSubmit_accepted sb p st Hsame Hvalid Htoken).
    destruct (changePassword sb (password p) true None st) as [[r|e] st'];
      split; reflexivity.
  - rewrite (handleSubmit_turned_down sb p st Hchecks).
    split; [reflexivity | discriminate].
Qed.

(** X17. A submission is shown as a success exactly when the three checks
    of the page pass and [changePassword] returns normally. Then both
    password fields are emptied and the move to "/login" is scheduled; in
    every other case the fields and the pending navigation are left as
    they were. *)
Theorem handleSubmit_success_iff {B : Type} (sb : Supabase B)
  (p : PageState) (st : AuthState B) :
  let after := fst (snd (handleSubmit sb (p, st))) in
  (isSuccess after = true <->
   String.eqb (password p) (confirmPassword p) = true /\
   validation_ok (passwordValidation p) = true /\
   token_given (accessToken p) = true /\
   exists r st', changePassword sb (password p) true None st = (Normal r, st')) /\
  (isSuccess after = true ->
   password after = "" /\ confirmPassword after = "" /\
   message after = Some msg_success /\ redirect after = Some "/login") /\
  (isSuccess after = false ->
   password after = password p /\ confirmPassword after = confirmPassword p /\
   redirect after = redirect p).
Proof.
  intros after. subst after.
  destruct (String.eqb (password p) (confirmPassword p) &&
            validation_ok (passwordValidation p) &&
            token_given (accessToken p)) eqn:Hchecks.
  - apply andb_true_iff in Hchecks as [Hchecks Htoken].
    apply andb_true_iff in Hchecks as [Hsame Hvalid].
    rewrite (handleSubmit_accepted sb p st Hsame Hvalid Htoken).
    destruct (changePassword sb (password p) true None st) as [[r|e] st'];
      cbn; repeat split;
      solve [ intros; first [discriminate | reflexivity | assumption | eauto]
            | intros (_ & _ & _ & r' & st2 & H); discriminate H ].
  - rewrite (handleSubmit_turned_down sb p st Hchecks). cbn.
    repeat split;
      solve [ intros; first [discriminate | reflexivity]
            | intros (Hsame & Hvalid & Htoken & _);
              rewrite Hsame, Hvalid, Htoken in Hchecks; discriminate Hchecks ].
Qed.

Lemma present_Some (o : option string) (t : string) :
  present o = Some t -> o = Some t /\ truthy t = true.
Proof.
  unfold present. destruct o as [v|]; [|discriminate].
  destruct (truthy v) eqn:Hv; [|discriminate].
  intros H. injection H as <-. now split.
Qed.

(** X18. Reading the token off the address: a non-empty [access_token] of
    the hash fragment is taken whatever the query holds; without one (also
    when it is there but empty) a non-empty [token] of the query is taken;
    a token that is taken is removed from the address. With neither, the
    page keeps no token and shows the missing-link message. *)
Theorem extractToken_outcomes (p : PageState) (loc : Location) :
  (forall t,
      present (searchParams_get (hash_params loc) "access_token") = Some t ->
      extractToken (p, loc) = (setAccessToken (Some t) p, mkLocation [] [])) /\
  (forall t,
      present (searchParams_get (hash_params loc) "access_token") = None ->
      present (searchParams_get (search_params loc) "token") = Some t ->
      extractToken (p, loc) = (setAccessToken (Some t) p, mkLocation [] [])) /\
  (present (searchParams_get (hash_params loc) "access_token") = None ->
   present (searchParams_get (search_params loc) "token") = None ->
   extractToken (p, loc) =
     (setIsSuccess false (setMessage (Some msg_missing_link) p), loc)).
Proof.
  unfold extractToken, link_token. cbn [fst snd]. repeat split.
  - intros t Hhash. rewrite Hhash.
    apply present_Some in Hhash as [_ Ht]. cbn. now rewrite Ht.
  - intros t Hhash Hquery. rewrite Hhash, Hquery. reflexivity.
  - intros Hhash Hquery. rewrite Hhash, Hquery. reflexivity.
Qed.

Lemma extractToken_outcomes_witness :
  let p := mkPage "" "" false None false false None None None in
  accessToken (fst (extractToken
                      (p, mkLocation [("access_token", ""); ("type", "recovery")]
                                     [("token", "from-query")]))) =
  Some "from-query" /\
  accessToken (fst (extractToken
                      (p, mkLocation [("access_token", "from-hash")]
                                     [("token", "from-query")]))) =
  Some "from-hash".
Proof.
  intros p. split.
  - rewrite (proj1 (proj2 (extractToken_outcomes p _)) "from-query");
      reflexivity.
  - rewrite (proj1 (extractToken_outcomes p _) "from-hash"); reflexivity.
Defined.

(** X19. A page opened from an address without a usable token can never
    change a password: whatever is typed into the form afterwards, the
    submission makes no call, leaves the provider state as it was and is
    not shown as a success. *)
Theorem link_without_token_cannot_reset {B : Type} (sb : Supabase B)
  (loc : Location) (opened typed : PageState) (st : AuthState B) :
  accessToken opened = None ->
  present (searchParams_get (hash_params loc) "access_token") = None ->
  present (searchParams_get (search_params loc) "token") = None ->
  accessToken typed = accessToken (fst (extractToken (opened, loc))) ->
  fst (handleSubmit sb (typed, st)) = Normal tt /\
  snd (snd (handleSubmit sb (typed, st))) = st /\
  isSuccess (fst (snd (handleSubmit sb (typed, st)))) = false.
Proof.
  intros Hopened Hhash Hquery Htyped.
  unfold extractToken, link_token in Htyped. cbn [fst snd] in Htyped.
  rewrite Hhash, Hquery in Htyped.
  cbn in Htyped. rewrite Hopened in Htyped.
  rewrite handleSubmit_turned_down.
  - repeat split.
  - rewrite Htyped. cbn. apply andb_false_r.
Qed.

Lemma link_without_token_cannot_reset_witness :
  let opened := mkPage "" "" false None false false None None None in
  let loc := mkLocation [("error", "access_denied"); ("error_code", "otp_expired")] [] in
  snd (snd (handleSubmit Reference.client
              (Scenario.reset_page None, idle Scenario.base))) =
  idle Scenario.base.
Proof.
  intros opened loc.
  apply (link_without_token_cannot_reset Reference.client loc opened
           (Scenario.reset_page None) (idle Scenario.base)); reflexivity.
Defined.

(** * Further properties of the admin-users function *)

Lemma prefix_append (p s : string) : String.prefix p (p +:+ s) = true.
Proof.
  induction p as [|a p IH].
  - destruct s; reflexivity.
  - change (String a p +:+ s) with (String a (p +:+ s)).
    cbn [String.prefix].
    destruct (ascii_dec a a); [exact IH | congruence].
Qed.

Lemma drop_chars_append (p s : string) :
  drop_chars (String.length p) (p +:+ s) = s.
Proof. induction p as [|a p IH]; cbn; [reflexivity | exact IH]. Qed.

Lemma replace_first_unfold (pat rep s : string) :
  replace_first pat rep s =
  if String.prefix pat s then rep +:+ drop_chars (String.length pat) s
  else match s with
       | EmptyString => EmptyString
       | String c rest => String c (replace_first pat rep rest)
       end.
Proof. destruct s; reflexivity. Qed.

(** The header the browser client builds, ["Bearer "] followed by the
    token, yields that token again on the server side. *)
Lemma bearer_round_trip (t : string) :
  present (Some ("Bearer " +:+ t)) = Some ("Bearer " +:+ t) /\
  replace_first "Bearer " "" ("Bearer " +:+ t) = t.
Proof.
  split; [reflexivity|].
  rewrite replace_first_unfold, prefix_append, drop_chars_append. reflexivity.
Qed.

(** Past the guard, the handler is the dispatched operation, with a
    rejection turned into the answer 500. *)
Lemma handler_past_guard {B : Type} (svc : Service B) (env : option string)
  (req : Request) (b b1 b2 : B) (tr : list Event) (t : string)
  (caller : AuthUser) (r : PgResponse RoleRow) :
  req_method req <> "OPTIONS" ->
  req_authorization req = Some ("Bearer " +:+ t) ->
  svc_getUser svc t b = (mkAuthResponse (Some caller) None, b1) ->
  svc_select_role svc (au_id caller) b1 = (r, b2) ->
  not_admin r = false ->
  handler svc env req (mkTraced b tr) =
    match dispatch svc env req
            (mkTraced b2 (tr ++ [EvGetUser t; EvSelectRole (au_id caller)])) with
    | (Normal resp, w) => (Normal resp, w)
    | (Throw _, w) => (Normal (json 500 (ErrorBody "Internal server error")), w)
    end.
Proof.
  intros Hmethod Hheader Hauth Hrole Hadmin.
  unfold handler. apply String.eqb_neq in Hmethod. rewrite Hmethod.
  rewrite Hheader. destruct (bearer_round_trip t) as [-> ->].
  unfold try_catch, bind, invoke. cbn -[dispatch].
  rewrite Hauth. cbn -[dispatch]. rewrite Hrole, Hadmin.
  cbn -[dispatch]. rewrite <- app_assoc. cbn -[dispatch].
  destruct (dispatch svc env req _) as [[resp|e] w]; reflexivity.
Qed.

(** X20. A request without an Authorization header (or with an empty one)
    is answered 401 without any call being made; a request whose token the
    identity provider does not resolve to a user is answered 401 after
    that one call. Neither reaches the directory or an operation. *)
Theorem guard_rejects_unauthenticated {B : Type} (svc : Service B)
  (env : option string) (req : Request) (w : Traced B) :
  req_method req <> "OPTIONS" ->
  (present (req_authorization req) = None ->
   handler svc env req w =
     (Normal (json 401 (ErrorBody "Missing authorization header")), w)) /\
  (forall t auth b1,
      req_authorization req = Some ("Bearer " +:+ t) ->
      svc_getUser svc t (backend w) = (auth, b1) ->
      auth_error auth <> None \/ auth_user auth = None ->
      handler svc env req w =
        (Normal (json 401 (ErrorBody "Invalid authorization token")),
         mkTraced b1 (trace w ++ [EvGetUser t]))).
Proof.
  intros Hmethod. apply String.eqb_neq in Hmethod.
  unfold handler. rewrite Hmethod. split.
  - intros Hnone. rewrite Hnone. reflexivity.
  - intros t auth b1 Hheader Hauth Hrejected. rewrite Hheader.
    destruct (bearer_round_trip t) as [-> ->].
    unfold try_catch, bind, invoke. cbn. rewrite Hauth. cbn.
    destruct (auth_error auth) as [e|]; [reflexivity|].
    destruct (auth_user auth) as [u|]; [|reflexivity].
    destruct Hrejected as [H|H]; congruence.
Qed.

Lemma guard_rejects_unauthenticated_witness :
  handler Reference.service None
    (mkRequest "DELETE" "/functions/v1/admin-users/u1" None None)
    (mkTraced Scenario.base []) =
  (Normal (json 401 (ErrorBody "Missing authorization header")),
   mkTraced Scenario.base []) /\
  handler Reference.service None
    (mkRequest "DELETE" "/functions/v1/admin-users/u1" (Some "Bearer forged") None)
    (mkTraced Scenario.base []) =
  (Normal (json 401 (ErrorBody "Invalid authorization token")),
   mkTraced Scenario.base [EvGetUser "forged"]).
Proof.
  split.
  - apply (guard_rejects_unauthenticated Reference.service None
             (mkRequest "DELETE" "/functions/v1/admin-users/u1" None None)
             (mkTraced Scenario.base [])); [discriminate | reflexivity].
  - apply (proj2 (guard_rejects_unauthenticated Reference.service None
             (mkRequest "DELETE" "/functions/v1/admin-users/u1"
                        (Some "Bearer forged") None)
             (mkTraced Scenario.base []) ltac:(discriminate))
             "forged"
             (mkAuthResponse None (Some (mkError "AuthApiError" "invalid JWT")))
             Scenario.base).
    + reflexivity.
    + vm_compute. reflexivity.
    + left. discriminate.
Defined.

(** X21. A caller whose token is good and whose role resolves to a name
    other than "admin" is answered 403 after the two calls of the guard:
    no operation is dispatched, whatever the method, path and body. *)
Theorem guard_forbids_other_roles {B : Type} (svc : Service B)
  (env : option string) (req : Request) (b b1 b2 : B) (tr : list Event)
  (t : string) (caller : AuthUser) (r : PgResponse RoleRow) (row : RoleRow)
  (name : string) :
  req_method req <> "OPTIONS" ->
  req_authorization req = Some ("Bearer " +:+ t) ->
  svc_getUser svc t b = (mkAuthResponse (Some caller) None, b1) ->
  svc_select_role svc (au_id caller) b1 = (r, b2) ->
  pg_data r = Some row ->
  rr_roles row = Some name ->
  name <> "admin" ->
  handler svc env req (mkTraced b tr) =
    (Normal (json 403 (ErrorBody "Insufficient permissions")),
     mkTraced b2 (tr ++ [EvGetUser t; EvSelectRole (au_id caller)])).
Proof.
  intros Hmethod Hheader Hauth Hrole Hdata Hname Hother.
  unfold handler. apply String.eqb_neq in Hmethod. rewrite Hmethod.
  rewrite Hheader. destruct (bearer_round_trip t) as [-> ->].
  unfold try_catch, bind, invoke. cbn. rewrite Hauth. cbn. rewrite Hrole.
  assert (Hdeny : not_admin r = true).
  { unfold not_admin. rewrite Hdata, Hname.
    apply String.eqb_neq in Hother. rewrite Hother.
    destruct (pg_error r); reflexivity. }
  rewrite Hdeny. cbn. rewrite <- app_assoc. reflexivity.
Qed.

Lemma guard_forbids_other_roles_witness :
  let b := ReferenceSession.with_session (Some "u1")
             (mkBackend (identities Scenario.base) (directory Scenario.base)
                (roles_table Scenario.base) None
                (<["alice-token" := "u1"]> (bearer_tokens Scenario.base))
                (faults Scenario.base)) in
  handler Reference.service None
    (mkRequest "DELETE" "/functions/v1/admin-users/u0" (Some "Bearer alice-token") None)
    (mkTraced b []) =
  (Normal (json 403 (ErrorBody "Insufficient permissions")),
   mkTraced b [EvGetUser "alice-token"; EvSelectRole "u1"]).
Proof.
  intros b.
  apply (guard_forbids_other_roles Reference.service None
           (mkRequest "DELETE" "/functions/v1/admin-users/u0"
                      (Some "Bearer alice-token") None)
           b b b [] "alice-token" (mkAuthUser "u1" "alice@example.org")
           (mkPgResponse (Some (mkRoleRow (Some "r-member") (Some "member"))) None)
           (mkRoleRow (Some "r-member") (Some "member")) "member").
  - discriminate.
  - reflexivity.
  - vm_compute. reflexivity.
  - vm_compute. reflexivity.
  - reflexivity.
  - reflexivity.
  - discriminate.
Defined.

Lemma prefix_empty (s : string) : String.prefix "" s = true.
Proof. destruct s; reflexivity. Qed.

Lemma no_slash_cons (c : ascii) (s : string) :
  str_includes "/" (String c s) = false ->
  Ascii.eqb c "/" = false /\ str_includes "/" s = false.
Proof.
  cbn [str_includes String.prefix].
  destruct (ascii_dec "/" c) as [Heq|Hne].
  - rewrite prefix_empty. discriminate.
  - cbn. intros Hrest. split; [|exact Hrest].
    apply Ascii.eqb_neq. congruence.
Qed.

Lemma append_empty_right (s : string) : s +:+ "" = s.
Proof.
  induction s as [|a s IH]; [reflexivity|].
  change (String a s +:+ "") with (String a (s +:+ "")). now rewrite IH.
Qed.

Lemma append_one_then (acc : string) (c : ascii) (s : string) :
  (acc +:+ String c "") +:+ s = acc +:+ String c s.
Proof.
  induction acc as [|a acc IH]; [reflexivity|].
  change ((String a acc +:+ String c "") +:+ s)
    with (String a ((acc +:+ String c "") +:+ s)).
  now rewrite IH.
Qed.

Lemma last_segment_aux_no_slash (s acc : string) :
  str_includes "/" s = false -> last_segment_aux acc s = acc +:+ s.
Proof.
  revert acc. induction s as [|c s IH]; intros acc Hs.
  - cbn [last_segment_aux]. now rewrite append_empty_right.
  - apply no_slash_cons in Hs as [Hc Hs]. cbn [last_segment_aux].
    rewrite Hc, (IH _ Hs). apply append_one_then.
Qed.

Lemma last_segment_aux_of_path (base uid acc : string) :
  str_includes "/" uid = false ->
  last_segment_aux acc (base +:+ "/" +:+ uid) = uid.
Proof.
  intros Huid. revert acc. induction base as [|c base IH]; intros acc.
  - change ("" +:+ "/" +:+ uid) with (String "/" uid).
    cbn [last_segment_aux]. change (Ascii.eqb "/" "/") with true. cbn iota.
    now rewrite last_segment_aux_no_slash.
  - change (String c base +:+ "/" +:+ uid) with (String c (base +:+ "/" +:+ uid)).
    cbn [last_segment_aux]. destruct (Ascii.eqb c "/"); apply IH.
Qed.

(** The text after the last slash of a path that ends in a slash and an
    identifier free of slashes is that identifier. *)
Lemma last_segment_of_path (base uid : string) :
  str_includes "/" uid = false ->
  last_segment (base +:+ "/" +:+ uid) = uid.
Proof. apply last_segment_aux_of_path. Qed.

Section PastGuard.

Context {B : Type} (svc : Service B) (env : option string) (req : Request).
Context (b b1 b2 : B) (tr : list Event) (t : string) (caller : AuthUser).
Context (r : PgResponse RoleRow).

(** The request is not a preflight, carries a bearer token that the
    provider resolves to [caller], and the role of [caller] is "admin". *)
Hypothesis Hmethod : req_method req <> "OPTIONS".
Hypothesis Hheader : req_authorization req = Some ("Bearer " +:+ t).
Hypothesis Hauth : svc_getUser svc t b = (mkAuthResponse (Some caller) None, b1).
Hypothesis Hrole : svc_select_role svc (au_id caller) b1 = (r, b2).
Hypothesis Hadmin : not_admin r = false.

Local Notation "'guard_calls'" := [EvGetUser t; EvSelectRole (au_id caller)].
Local Notation "'reset_url'" := (frontendBaseUrl env +:+ "/reset-password").

Ltac past_guard :=
  rewrite (handler_past_guard svc env req b b1 b2 tr t caller r
             Hmethod Hheader Hauth Hrole Hadmin);
  unfold dispatch.


(** X23. An admin's POST or PUT whose body is not valid JSON is answered
    500, and no call is made beyond the guard: nothing is created or
    updated. *)
Theorem malformed_body_500 :
  req_body req = None ->
  (req_method req = "POST" /\ endsWith "/admin-users" (req_pathname req) = true) \/
  req_method req = "PUT" ->
  handler svc env req (mkTraced b tr) =
    (Normal (json 500 (ErrorBody "Internal server error")),
     mkTraced b2 (tr ++ guard_calls)).
Proof.
  intros Hbody Hroute. past_guard.
  destruct Hroute as [[Hpost Hpath] | Hput].
  - rewrite Hpost, Hpath. cbn.
    unfold createUser, parseBody, bind, throw. rewrite Hbody. reflexivity.
  - rewrite Hput. cbn.
    unfold updateUser, parseBody, bind, throw. rewrite Hbody. reflexivity.
Qed.

(** X24. When the identity provider refuses to create the identity, the
    create operation answers 400 with the provider's message and stops:
    no directory row is inserted and nothing is deprovisioned. *)
Theorem create_stops_on_provider_failure (body : Body) (created : AuthResponse)
  (e : JsError) (b3 : B) :
  req_method req = "POST" ->
  endsWith "/admin-users" (req_pathname req) = true ->
  req_body req = Some body ->
  svc_createUser svc (b_email body) (b_password body) b2 = (created, b3) ->
  auth_error created = Some e ->
  handler svc env req (mkTraced b tr) =
    (Normal (json 400 (ErrorBody (err_message e))),
     mkTraced b3 ((tr ++ guard_calls) ++
                  [EvCreateUser (b_email body) (b_password body)])).
Proof.
  intros Hpost Hpath Hbody Hcreate Herror. past_guard.
  rewrite Hpost, Hpath. cbn.
  unfold createUser, parseBody, bind, invoke, ret. rewrite Hbody. cbn.
  rewrite Hcreate. cbn. rewrite Herror. reflexivity.
Qed.

(** X25. When the identity and the directory row are both created, the
    create operation answers 201 with the row the store returned, whatever
    becomes of the reset notice: the notice may succeed, come back with an
    error or reject. The row is inserted under the id of the new identity
    with [needs_password_reset] set, absent grant sets stored as empty, and
    the notice points at the front end's "/reset-password". *)
Theorem create_answers_201_whatever_the_notice (body : Body) (created : AuthUser)
  (inserted : PgResponse User) (notice : completion (option JsError))
  (b3 b4 b5 : B) :
  let row := mkInsertRow (au_id created) (b_email body) (b_full_name body)
               (b_role_id body) (or_nil (b_menu_access body))
               (or_empty_object (b_sub_menu_access body))
               (or_nil (b_component_access body)) true in
  req_method req = "POST" ->
  endsWith "/admin-users" (req_pathname req) = true ->
  req_body req = Some body ->
  svc_createUser svc (b_email body) (b_password body) b2 =
    (mkAuthResponse (Some created) None, b3) ->
  svc_insert_user svc row b3 = (inserted, b4) ->
  pg_error inserted = None ->
  svc_generateLink svc (b_email body) reset_url b4 = (notice, b5) ->
  handler svc env req (mkTraced b tr) =
    (Normal (json 201 (UserBody (pg_data inserted))),
     mkTraced b5 ((tr ++ guard_calls) ++
                  [EvCreateUser (b_email body) (b_password body);
                   EvInsertUser row;
                   EvGenerateLink (b_email body) reset_url])).
Proof.
  intros row Hpost Hpath Hbody Hcreate Hinsert Hok Hnotice. past_guard.
  rewrite Hpost, Hpath. cbn.
  unfold createUser, parseBody, notify, try_catch, bind, invoke,
    invoke_rejecting, ret. rewrite Hbody. cbn.
  rewrite Hcreate. cbn. fold row. rewrite Hinsert. cbn. rewrite Hok. cbn.
  rewrite Hnotice. rewrite <- !app_assoc. destruct notice; reflexivity.
Qed.

(** X26. An update sends no reset notice unless it is asked to: when the
    store rejects the update the answer is 400 with the store's message,
    and when the update goes through with [needs_password_reset] absent or
    false the answer is 200 with the updated row; in both cases the update
    is the only call past the guard. The row addressed is the text after
    the last slash of the path. *)
Theorem update_without_notice (body : Body) (updated : PgResponse User) (b3 : B) :
  let userId := last_segment (req_pathname req) in
  let patch := mkPatch (b_full_name body) (b_role_id body) (b_menu_access body)
                 (b_sub_menu_access body) (b_component_access body)
                 (b_is_active body) (b_needs_password_reset body) in
  req_method req = "PUT" ->
  req_body req = Some body ->
  svc_update_user svc userId patch b2 = (updated, b3) ->
  (forall e, pg_error updated = Some e ->
     handler svc env req (mkTraced b tr) =
       (Normal (json 400 (ErrorBody (err_message e))),
        mkTraced b3 ((tr ++ guard_calls) ++ [EvUpdateUser userId patch]))) /\
  (pg_error updated = None ->
   is_true_opt (b_needs_password_reset body) = false ->
   handler svc env req (mkTraced b tr) =
     (Normal (json 200 (UserBody (pg_data updated))),
      mkTraced b3 ((tr ++ guard_calls) ++ [EvUpdateUser userId patch]))).
Proof.
  intros userId patch Hput Hbody Hupdate.
  split; [intros e Herror | intros Hok Hquiet]; past_guard;
    rewrite Hput; cbn;
    unfold updateUser, parseBody, bind, invoke, ret; rewrite Hbody; cbn;
    fold userId; fold patch; rewrite Hupdate; cbn.
  - rewrite Herror. reflexivity.
  - rewrite Hok, Hquiet. reflexivity.
Qed.

(** X27. An update that goes through with [needs_password_reset] true
    reads the email of the row and, when there is one, sends the reset
    notice to it; the answer is 200 with the updated row whatever becomes
    of the notice, and without an email no notice is sent. *)
Theorem update_with_notice (body : Body) (updated : PgResponse User)
  (currentEmail : option string) (b3 b4 : B) :
  let userId := last_segment (req_pathname req) in
  let patch := mkPatch (b_full_name body) (b_role_id body) (b_menu_access body)
                 (b_sub_menu_access body) (b_component_access body)
                 (b_is_active body) (b_needs_password_reset body) in
  req_method req = "PUT" ->
  req_body req = Some body ->
  svc_update_user svc userId patch b2 = (updated, b3) ->
  pg_error updated = None ->
  b_needs_password_reset body = Some true ->
  svc_select_email svc userId b3 = (currentEmail, b4) ->
  (forall em notice b5,
     present currentEmail = Some em ->
     svc_generateLink svc em reset_url b4 = (notice, b5) ->
     handler svc env req (mkTraced b tr) =
       (Normal (json 200 (UserBody (pg_data updated))),
        mkTraced b5 ((tr ++ guard_calls) ++
                     [EvUpdateUser userId patch; EvSelectEmail userId;
                      EvGenerateLink em reset_url]))) /\
  (present currentEmail = None ->
   handler svc env req (mkTraced b tr) =
     (Normal (json 200 (UserBody (pg_data updated))),
      mkTraced b4 ((tr ++ guard_calls) ++
                   [EvUpdateUser userId patch; EvSelectEmail userId]))).
Proof.
  intros userId patch Hput Hbody Hupdate Hok Hreset Hemail.
  split; [intros em notice b5 Hpresent Hnotice | intros Habsent]; past_guard;
    rewrite Hput; cbn;
    unfold updateUser, parseBody, notify, try_catch, bind, invoke,
      invoke_rejecting, ret; rewrite Hbody; cbn;
    fold userId; fold patch; rewrite Hupdate; cbn;
    rewrite Hok, Hreset; cbn; rewrite Hemail; cbn.
  - rewrite Hpresent. cbn. rewrite Hnotice. rewrite <- !app_assoc.
    destruct notice; reflexivity.
  - rewrite Habsent. cbn. rewrite <- !app_assoc. reflexivity.
Qed.

Lemma handler_delete (base uid : string)
  (o : completion (option JsError)) (b3 : B) :
  req_method req = "DELETE" ->
  req_pathname req = base +:+ "/" +:+ uid ->
  str_includes "/" uid = false ->
  svc_deleteUser svc uid b2 = (o, b3) ->
  handler svc env req (mkTraced b tr) =
    (Normal (match o with
             | Normal (Some e) => json 400 (ErrorBody (err_message e))
             | Normal None => json 200 (MessageBody "User deleted successfully")
             | Throw _ => json 500 (ErrorBody "Internal server error")
             end),
     mkTraced b3 ((tr ++ guard_calls) ++ [EvDeleteUser uid])).
Proof.
  intros Hdelete Hpath Huid Hcall. past_guard.
  rewrite Hdelete. cbn.
  unfold deleteUser, bind, invoke_rejecting, ret. rewrite Hpath.
  rewrite (last_segment_of_path base uid Huid). cbn. rewrite Hcall.
  destruct o as [[e|]|e]; reflexivity.
Qed.

(** X28. A delete makes one call past the guard, the deprovisioning of the
    identity named by the text after the last slash of the path; the
    directory is not touched by the function itself. It answers 400 with
    the provider's message when that call resolves with an error, 200 when
    it resolves without one, and 500 when it rejects. For a path that ends
    in a slash and an identifier free of slashes, the identity named is
    that identifier. *)
Theorem delete_deprovisions_path_id (base uid : string)
  (o : completion (option JsError)) (b3 : B) :
  req_method req = "DELETE" ->
  req_pathname req = base +:+ "/" +:+ uid ->
  str_includes "/" uid = false ->
  svc_deleteUser svc uid b2 = (o, b3) ->
  handler svc env req (mkTraced b tr) =
    (Normal (match o with
             | Normal (Some e) => json 400 (ErrorBody (err_message e))
             | Normal None => json 200 (MessageBody "User deleted successfully")
             | Throw _ => json 500 (ErrorBody "Internal server error")
             end),
     mkTraced b3 ((tr ++ guard_calls) ++ [EvDeleteUser uid])).
Proof.
  intros Hdelete Hpath Huid Hcall. past_guard.
  rewrite Hdelete. cbn.
  unfold deleteUser, bind, invoke_rejecting, ret. rewrite Hpath.
  rewrite (last_segment_of_path base uid Huid). cbn. rewrite Hcall.
  destruct o as [[e|]|e]; reflexivity.
Qed.

End PastGuard.

Ltac settle_side :=
  first [ discriminate
        | reflexivity
        | vm_compute; reflexivity
        | intros [H|H]; discriminate H ].


Lemma malformed_body_500_witness :
  handler Reference.service None
    (mkRequest "PUT" "/functions/v1/admin-users/u1" (Some "Bearer root-token") None)
    (mkTraced Scenario.base []) =
  (Normal (json 500 (ErrorBody "Internal server error")),
   mkTraced Scenario.base [EvGetUser "root-token"; EvSelectRole "u0"]).
Proof.
  apply (malformed_body_500 Reference.service None
           (mkRequest "PUT" "/functions/v1/admin-users/u1"
                      (Some "Bearer root-token") None)
           Scenario.base Scenario.base Scenario.base [] "root-token"
           (mkAuthUser "u0" "root@example.org")
           (mkPgResponse (Some (mkRoleRow (Some "r-admin") (Some "admin"))) None));
    try settle_side.
  right. reflexivity.
Defined.

Lemma create_stops_on_provider_failure_witness :
  let e := mkError "AuthApiError" "Password should be at least 6 characters" in
  let b := Reference.with_fault "auth.admin.createUser" e Scenario.base in
  handler Reference.service None Scenario.create_request (mkTraced b []) =
  (Normal (json 400 (ErrorBody "Password should be at least 6 characters")),
   mkTraced b [EvGetUser "root-token"; EvSelectRole "u0";
               EvCreateUser "bob@example.org" "T3mp#Passw0rd"]).
Proof.
  intros e b.
  apply (create_stops_on_provider_failure Reference.service None
           Scenario.create_request b b b [] "root-token"
           (mkAuthUser "u0" "root@example.org")
           (mkPgResponse (Some (mkRoleRow (Some "r-admin") (Some "admin"))) None)
           ltac:(discriminate) ltac:(reflexivity) ltac:(vm_compute; reflexivity)
           ltac:(vm_compute; reflexivity) ltac:(reflexivity)
           Scenario.bob_body (mkAuthResponse None (Some e)) e b);
    settle_side.
Defined.

Lemma create_answers_201_whatever_the_notice_witness :
  let b := Reference.with_fault "auth.admin.generateLink"
             (mkError "AuthApiError" "Email rate limit exceeded") Scenario.base in
  status <$> (match fst (handler Reference.service None Scenario.create_request
                            (mkTraced b [])) with
              | Normal resp => Some resp
              | Throw _ => None
              end) = Some 201.
Proof.
  intros b.
  erewrite (create_answers_201_whatever_the_notice Reference.service None
              Scenario.create_request b b b [] "root-token"
              (mkAuthUser "u0" "root@example.org")
              (mkPgResponse (Some (mkRoleRow (Some "r-admin") (Some "admin"))) None)
              ltac:(discriminate) ltac:(reflexivity) ltac:(vm_compute; reflexivity)
              ltac:(vm_compute; reflexivity) ltac:(reflexivity)
              Scenario.bob_body (mkAuthUser "id-bob@example.org" "bob@example.org"))
    by settle_side.
  reflexivity.
Defined.

Lemma update_without_notice_witness :
  let body := mkBody "" "" "Alice A." "r-member" None None None (Some true) None in
  let req := mkRequest "PUT" "/functions/v1/admin-users/u1"
                       (Some "Bearer root-token") (Some body) in
  trace (snd (handler Reference.service None req (mkTraced Scenario.base []))) =
  [EvGetUser "root-token"; EvSelectRole "u0";
   EvUpdateUser "u1" (mkPatch "Alice A." "r-member" None None None (Some true) None)].
Proof.
  intros body req.
  edestruct (update_without_notice Reference.service None req
               Scenario.base Scenario.base Scenario.base [] "root-token"
               (mkAuthUser "u0" "root@example.org")
               (mkPgResponse (Some (mkRoleRow (Some "r-admin") (Some "admin"))) None)
               ltac:(discriminate) ltac:(reflexivity) ltac:(vm_compute; reflexivity)
               ltac:(vm_compute; reflexivity) ltac:(reflexivity)
               body) as [_ Hquiet];
    [reflexivity | reflexivity | vm_compute; reflexivity |].
  rewrite Hquiet by reflexivity. reflexivity.
Defined.

Lemma update_with_notice_witness :
  let body := mkBody "" "" "Alice" "r-member" None None None None (Some true) in
  let req := mkRequest "PUT" "/functions/v1/admin-users/u1"
                       (Some "Bearer root-token") (Some body) in
  trace (snd (handler Reference.service None req (mkTraced Scenario.base []))) =
  [EvGetUser "root-token"; EvSelectRole "u0";
   EvUpdateUser "u1" (mkPatch "Alice" "r-member" None None None None (Some true));
   EvSelectEmail "u1";
   EvGenerateLink "alice@example.org" "http://localhost:5173/reset-password"].
Proof.
  intros body req.
  edestruct (update_with_notice Reference.service None req
               Scenario.base Scenario.base Scenario.base [] "root-token"
               (mkAuthUser "u0" "root@example.org")
               (mkPgResponse (Some (mkRoleRow (Some "r-admin") (Some "admin"))) None)
               ltac:(discriminate) ltac:(reflexivity) ltac:(vm_compute; reflexivity)
               ltac:(vm_compute; reflexivity) ltac:(reflexivity)
               body) as [Hsent _];
    [ reflexivity | reflexivity | vm_compute; reflexivity | reflexivity
    | reflexivity | vm_compute; reflexivity | ].
  erewrite Hsent by (vm_compute; reflexivity). reflexivity.
Defined.

Lemma delete_deprovisions_path_id_witness :
  let out := handler Reference.service None
               (mkRequest "DELETE" "/functions/v1/admin-users/u1"
                          (Some "Bearer root-token") None)
               (mkTraced Scenario.base []) in
  trace (snd out) = [EvGetUser "root-token"; EvSelectRole "u0"; EvDeleteUser "u1"] /\
  identities (backend (snd out)) !! "u1" = None.
Proof.
  intros out. unfold out.
  erewrite (delete_deprovisions_path_id Reference.service None
              (mkRequest "DELETE" "/functions/v1/admin-users/u1"
                         (Some "Bearer root-token") None)
              Scenario.base Scenario.base Scenario.base [] "root-token"
              (mkAuthUser "u0" "root@example.org")
              (mkPgResponse (Some (mkRoleRow (Some "r-admin") (Some "admin"))) None)
              ltac:(discriminate) ltac:(reflexivity) ltac:(vm_compute; reflexivity)
              ltac:(vm_compute; reflexivity) ltac:(reflexivity)
              "/functions/v1/admin-users" "u1" (Normal None))
    by settle_side.
  split; vm_compute; reflexivity.
Defined.

Ltac split_on_results :=
  repeat match goal with
         | |- context [match ?x with _ => _ end] =>
             match x with
             | context [match _ with _ => _ end] => fail 1
             | _ => destruct x eqn:?; cbn
             end
         | |- context [if ?x then _ else _] =>
             match x with
             | context [if _ then _ else _] => fail 1
             | _ => destruct x eqn:?; cbn
             end
         end.

(** X29. The function always answers: whatever the request and whatever
    the collaborators do, the handler ends with a response, never with a
    rejection, and the status of that response is one of 200, 201, 400,
    401, 403, 405 and 500. *)
Theorem handler_always_answers {B : Type} (svc : Service B)
  (env : option string) (req : Request) (w : Traced B) :
  exists resp w',
    handler svc env req w = (Normal resp, w') /\
    In (status resp) [200; 201; 400; 401; 403; 405; 500].
Proof.
  unfold handler, dispatch, listUsers, createUser, updateUser, deleteUser,
    parseBody, notify, try_catch, bind, invoke, invoke_rejecting, throw, ret,
    json.
  cbn. split_on_results;
    eexists; eexists; (split; [reflexivity | cbn; tauto]).
Qed.

(** * The admin-users client against the function *)

Lemma plain_id_no_slash (s : string) :
  AdminUsersApi.plain_id s = true -> str_includes "/" s = false.
Proof.
  induction s as [|c s IH]; [reflexivity|].
  cbn [AdminUsersApi.plain_id str_includes String.prefix].
  intros H. apply andb_true_iff in H as [Hc Hs].
  destruct (ascii_dec "/" c) as [<-|_]; [vm_compute in Hc; discriminate Hc|].
  cbn. now apply IH.
Qed.

Lemma append_associative (a b c : string) : (a +:+ b) +:+ c = a +:+ b +:+ c.
Proof.
  induction a as [|x a IH]; [reflexivity|].
  change ((String x a +:+ b) +:+ c) with (String x ((a +:+ b) +:+ c)).
  now rewrite IH.
Qed.

(** Without a session in the browser none of the four calls of the client
    sends a request: each throws "No active session". *)
Lemma admin_api_needs_session {B : Type} (sb : Supabase B)
  (fetch : Request -> M (Traced B) Response) (base : string)
  (w : Traced B) (s : option Session) (b1 : B) :
  auth_getSession sb (backend w) = (s, b1) ->
  session_token s = None ->
  let refused {A : Type} (m : M (Traced B) A) :=
    m w = (Throw (mkError "Error" "No active session"), mkTraced b1 (trace w)) in
  refused (AdminUsersApi.getUsers sb fetch base) /\
  (forall data, refused (AdminUsersApi.createUser sb fetch base data)) /\
  (forall uid data, refused (AdminUsersApi.updateUser sb fetch base uid data)) /\
  (forall uid, refused (AdminUsersApi.deleteUser sb fetch base uid)).
Proof.
  intros Hsession Hnone refused. unfold refused.
  unfold AdminUsersApi.getUsers, AdminUsersApi.createUser,
    AdminUsersApi.updateUser, AdminUsersApi.deleteUser,
    AdminUsersApi.on_backend, getAuthHeaders, bind, call, throw.
  rewrite Hsession. cbn. rewrite Hnone. repeat split.
Qed.

(** X30. The client's [deleteUser] against the function, for a signed-in
    caller and an identifier made of letters, digits, hyphens and
    underscores. The token of the session is the one the function
    authenticates. A caller whose role is not "admin" gets an [ApiError]
    saying "Insufficient permissions" and nothing is deprovisioned; for an
    admin the identity the function asks the provider to deprovision is
    the one named by the client, and the call returns the confirmation
    when the provider resolves without an error, throws an [ApiError] with
    the provider's message ("Request failed" when that is empty) when it
    resolves with one, and throws an [ApiError] saying "Internal server
    error" when the provider's call rejects. *)
Theorem api_delete_end_to_end {B : Type} (sb : Supabase B) (svc : Service B)
  (env : option string) (base uid : string) (w : Traced B)
  (s : option Session) (t : string) (caller : AuthUser)
  (r : PgResponse RoleRow) (b0 b1 b2 : B) :
  AdminUsersApi.plain_id uid = true ->
  auth_getSession sb (backend w) = (s, b0) ->
  session_token s = Some t ->
  svc_getUser svc t b0 = (mkAuthResponse (Some caller) None, b1) ->
  svc_select_role svc (au_id caller) b1 = (r, b2) ->
  (not_admin r = true ->
   AdminUsersApi.deleteUser sb (AdminUsersApi.deployed svc env) base uid w =
     (Throw (ApiError 403 "Insufficient permissions"),
      mkTraced b2 (trace w ++ [EvGetUser t; EvSelectRole (au_id caller)]))) /\
  (not_admin r = false ->
   forall o b3,
     svc_deleteUser svc uid b2 = (o, b3) ->
     AdminUsersApi.deleteUser sb (AdminUsersApi.deployed svc env) base uid w =
       (match o with
        | Normal (Some e) =>
            Throw (ApiError 400 (or_else (err_message e) "Request failed"))
        | Normal None => Normal (MessageBody "User deleted successfully")
        | Throw _ => Throw (ApiError 500 "Internal server error")
        end,
        mkTraced b3 ((trace w ++ [EvGetUser t; EvSelectRole (au_id caller)]) ++
                     [EvDeleteUser uid]))).
Proof.
  intros Hplain Hsession Htoken Hauth Hrole.
  apply plain_id_no_slash in Hplain.
  assert (Hrun :
            AdminUsersApi.deleteUser sb (AdminUsersApi.deployed svc env) base uid w =
            bind (AdminUsersApi.deployed svc env
                    (mkRequest "DELETE" (base +:+ "/admin-users" +:+ "/" +:+ uid)
                               (Some ("Bearer " +:+ t)) None))
                 AdminUsersApi.handleResponse (mkTraced b0 (trace w))).
  { unfold AdminUsersApi.deleteUser, AdminUsersApi.on_backend,
      getAuthHeaders, call.
    unfold bind at 1 2. rewrite Hsession. cbn -[AdminUsersApi.deployed bind].
    rewrite Htoken. reflexivity. }
  rewrite Hrun. clear Hrun.
  unfold AdminUsersApi.deployed, bind. split.
  - intros Hdeny.
    assert (Hanswer :
      handler svc env
        (mkRequest "DELETE" (base +:+ "/admin-users" +:+ "/" +:+ uid)
                   (Some ("Bearer " +:+ t)) None)
        (mkTraced b0 (trace w)) =
      (Normal (json 403 (ErrorBody "Insufficient permissions")),
       mkTraced b2 (trace w ++ [EvGetUser t; EvSelectRole (au_id caller)]))).
    { unfold handler. cbn [req_method req_authorization].
      change (String.eqb "DELETE" "OPTIONS") with false. cbv iota.
      destruct (bearer_round_trip t) as [-> ->].
      unfold try_catch, bind, invoke. cbn. rewrite Hauth. cbn.
      rewrite Hrole, Hdeny. cbn. rewrite <- app_assoc. reflexivity. }
    rewrite Hanswer. reflexivity.
  - intros Hadmin o b3 Hdelete.
    rewrite (handler_delete svc env
               (mkRequest "DELETE" (base +:+ "/admin-users" +:+ "/" +:+ uid)
                          (Some ("Bearer " +:+ t)) None)
               b0 b1 b2 (trace w) t caller r
               ltac:(discriminate) eq_refl Hauth Hrole Hadmin
               (base +:+ "/admin-users") uid o b3 eq_refl
               ltac:(cbn; now rewrite append_associative) Hplain Hdelete).
    destruct o as [[e|]|e]; reflexivity.
Qed.

Lemma api_delete_end_to_end_witness :
  let b := mkBackend (identities Scenario.base) (directory Scenario.base)
             (roles_table Scenario.base) (Some "u1")
             (<["session-of-u1" := "u1"]> (bearer_tokens Scenario.base))
             (faults Scenario.base) in
  AdminUsersApi.deleteUser Reference.client
    (AdminUsersApi.deployed Reference.service None) "/functions/v1" "u0"
    (mkTraced b []) =
  (Throw (ApiError 403 "Insufficient permissions"),
   mkTraced b [EvGetUser "session-of-u1"; EvSelectRole "u1"]).
Proof.
  intros b.
  apply (proj1 (api_delete_end_to_end Reference.client Reference.service None
                  "/functions/v1" "u0" (mkTraced b [])
                  (Some (mkSession (Some "session-of-u1"))) "session-of-u1"
                  (mkAuthUser "u1" "alice@example.org")
                  (mkPgResponse (Some (mkRoleRow (Some "r-member") (Some "member")))
                                None)
                  b b b
                  ltac:(reflexivity) ltac:(reflexivity) ltac:(reflexivity)
                  ltac:(vm_compute; reflexivity) ltac:(vm_compute; reflexivity))).
  reflexivity.
Defined.

(** * The search box of the user list *)

Lemma str_includes_empty (s : string) : str_includes "" s = true.
Proof. destruct s; reflexivity. Qed.

(** With an empty search term every user is listed, in the order given. *)
Lemma filteredUsers_empty_term (toLowerCase : string -> string)
  (users : list User) :
  toLowerCase "" = "" ->
  filteredUsers toLowerCase users "" = users.
Proof.
  intros Hempty. unfold filteredUsers, matches. rewrite Hempty.
  induction users as [|u users IH]; [reflexivity|].
  cbn [List.filter]. rewrite str_includes_empty. cbn. now rewrite IH.
Qed.

(** On the reference backend, a delete whose deprovisioning call rejects is
    answered 500 and leaves the identity in place. *)
Lemma rejected_delete_answers_500 :
  let b := Reference.with_fault "auth.admin.deleteUser.rejects"
             (mkError "TypeError" "fetch failed") Scenario.base in
  let out := handler Reference.service None
               (mkRequest "DELETE" "/functions/v1/admin-users/u1"
                          (Some "Bearer root-token") None)
               (mkTraced b []) in
  fst out = Normal (json 500 (ErrorBody "Internal server error")) /\
  trace (snd out) = [EvGetUser "root-token"; EvSelectRole "u0"; EvDeleteUser "u1"] /\
  is_Some (identities (backend (snd out)) !! "u1").
Proof. vm_compute. repeat split. eexists. reflexivity. Qed.
